(** * Radio remote-control link for a combat robot (ATmega328P + NRF24L01)

    Shallow embedding of [Receptor/Receptor/main.c] (receiver: command
    dispatch, lives and penalty) and [Transmissor/Transmissor/main.c]
    (transmitter: joystick and buttons to a 2-byte packet), with the
    properties of the specification stated over it.

    C integers are [Z] with their wrap-around written out; the I/O registers
    the two programs touch form a register file indexed by register name. *)

From Stdlib Require Import ZArith List Lia Bool.
Import ListNotations.
Open Scope Z_scope.

(** ** Integer types of AVR-GCC *)

(** [uint8_t]: conversion to 8 bits. *)
Definition u8 (z : Z) : Z := z mod 256.

(** [uint16_t] (and [unsigned int], which is 16 bits wide on AVR). *)
Definition u16 (z : Z) : Z := z mod 65536.

(** [long]: 32 bits, two's complement. *)
Definition long (z : Z) : Z := (z + 2147483648) mod 4294967296 - 2147483648.

(** [1 << n]. *)
Definition bit (n : Z) : Z := Z.shiftl 1 n.

(** Left-to-right sequencing of state transformers. *)
Notation "s |> f" := (f s) (at level 68, left associativity, only parsing).

(** ** I/O registers *)

Module Avr.

(** The 8-bit registers written by the main loops and the interrupt
    routine. *)
Inductive reg : Set :=
| PORTC | PORTD | DDRC | DDRD
| OCR0A | OCR2B
| TCCR0A | TCCR2A | TCCR0B | TCCR2B.

Definition reg_eqb (a b : reg) : bool :=
  match a, b with
  | PORTC, PORTC | PORTD, PORTD | DDRC, DDRC | DDRD, DDRD
  | OCR0A, OCR0A | OCR2B, OCR2B
  | TCCR0A, TCCR0A | TCCR2A, TCCR2A | TCCR0B, TCCR0B | TCCR2B, TCCR2B => true
  | _, _ => false
  end.

(** Bit numbers, as [<avr/io.h>] gives them for the ATmega328P. *)
Definition PC1 : Z := 1.
Definition PC3 : Z := 3.
Definition PC4 : Z := 4.
Definition PD0 : Z := 0.
Definition PD1 : Z := 1.
Definition PD2 : Z := 2.
Definition PD3 : Z := 3.
Definition PD6 : Z := 6.
Definition WGM00 : Z := 0.
Definition WGM01 : Z := 1.
Definition COM0A0 : Z := 6.
Definition COM0A1 : Z := 7.
Definition WGM20 : Z := 0.
Definition WGM21 : Z := 1.
Definition COM2B0 : Z := 4.
Definition COM2B1 : Z := 5.
Definition CS00 : Z := 0.
Definition CS01 : Z := 1.
Definition CS22 : Z := 2.

Definition regs : Type := reg -> Z.

(** All registers read 0 after reset. *)
Definition reset : regs := fun _ => 0.

(** [r = v;] *)
Definition store (r : reg) (v : Z) (io : regs) : regs :=
  fun r' => if reg_eqb r r' then u8 v else io r'.

(** [r |= m;] *)
Definition set_bits (r : reg) (m : Z) (io : regs) : regs :=
  store r (Z.lor (io r) m) io.

(** [r &= ~m;] *)
Definition clear_bits (r : reg) (m : Z) (io : regs) : regs :=
  store r (Z.land (io r) (Z.lnot m)) io.

(** [r ^= m;] *)
Definition toggle_bits (r : reg) (m : Z) (io : regs) : regs :=
  store r (Z.lxor (io r) m) io.

End Avr.

(** ** Wire codes

    The closed command set of the protocol with the byte each command is
    sent as (the [case] labels of the receiver, the [return] values of the
    transmitter). *)

Inductive Command : Set :=
| RESET_LIVES | TOGGLE_A | TOGGLE_B | TOGGLE_C
| REVERSE | STOP | FORWARD | LEFT | RIGHT
| FORWARD_LEFT | FORWARD_RIGHT | REVERSE_LEFT | REVERSE_RIGHT.

Definition wire_code (c : Command) : Z :=
  match c with
  | RESET_LIVES => 0xA1
  | TOGGLE_A => 0xA2
  | TOGGLE_B => 0xA3
  | TOGGLE_C => 0xA4
  | REVERSE => 0xA5
  | STOP => 0xA6
  | FORWARD => 0xA7
  | LEFT => 0xA8
  | RIGHT => 0xAA
  | FORWARD_LEFT => 0xAB
  | FORWARD_RIGHT => 0xAC
  | REVERSE_LEFT => 0xAD
  | REVERSE_RIGHT => 0xAE
  end.

Definition all_commands : list Command :=
  [RESET_LIVES; TOGGLE_A; TOGGLE_B; TOGGLE_C; REVERSE; STOP; FORWARD; LEFT;
   RIGHT; FORWARD_LEFT; FORWARD_RIGHT; REVERSE_LEFT; REVERSE_RIGHT].

(** The commands that set the wheels whatever the state of the machine. *)
Definition motion_commands : list Command :=
  [STOP; FORWARD; LEFT; RIGHT;
   FORWARD_LEFT; FORWARD_RIGHT; REVERSE_LEFT; REVERSE_RIGHT].

(** A packet is two bytes: [dados_recebidos[0]] (command) and
    [dados_recebidos[1]] (speed). *)
Definition packet : Type := (Z * Z)%type.

(** ** Receiver *)

Module Receptor.
Import Avr.

(** Where the main program stands between two interrupts: at the head of
    [while(1)], or spinning in [while (!tempo_rotacao);] inside [vida]. *)
Inductive location : Set := LoopHead | BusyWait.

(** The [volatile] globals, the locals of [main] that live across
    iterations, the registers, and the packets the radio holds for
    [nrf24_read].  [velocidade_F_R] is assigned before each use and so is
    a [let] in [dispatch], not a field. *)
Record machine : Type := mkMachine {
  io : regs;
  tempo_rotacao : Z;
  modo_penalidade : Z;
  contador_penalidade : Z;
  ldr_estado : Z;
  estado_rele : Z;
  vidas : Z;
  rx : list packet;
  pc : location
}.

Definition with_io (f : regs -> regs) (m : machine) : machine :=
  mkMachine (f (io m)) (tempo_rotacao m) (modo_penalidade m)
    (contador_penalidade m) (ldr_estado m) (estado_rele m) (vidas m)
    (rx m) (pc m).

Definition set_tempo_rotacao (v : Z) (m : machine) : machine :=
  mkMachine (io m) v (modo_penalidade m) (contador_penalidade m)
    (ldr_estado m) (estado_rele m) (vidas m) (rx m) (pc m).

Definition set_modo_penalidade (v : Z) (m : machine) : machine :=
  mkMachine (io m) (tempo_rotacao m) v (contador_penalidade m)
    (ldr_estado m) (estado_rele m) (vidas m) (rx m) (pc m).

Definition set_contador_penalidade (v : Z) (m : machine) : machine :=
  mkMachine (io m) (tempo_rotacao m) (modo_penalidade m) v
    (ldr_estado m) (estado_rele m) (vidas m) (rx m) (pc m).

Definition set_ldr_estado (v : Z) (m : machine) : machine :=
  mkMachine (io m) (tempo_rotacao m) (modo_penalidade m)
    (contador_penalidade m) v (estado_rele m) (vidas m) (rx m) (pc m).

Definition set_estado_rele (v : Z) (m : machine) : machine :=
  mkMachine (io m) (tempo_rotacao m) (modo_penalidade m)
    (contador_penalidade m) (ldr_estado m) v (vidas m) (rx m) (pc m).

Definition set_vidas (v : Z) (m : machine) : machine :=
  mkMachine (io m) (tempo_rotacao m) (modo_penalidade m)
    (contador_penalidade m) (ldr_estado m) (estado_rele m) v (rx m) (pc m).

Definition set_rx (q : list packet) (m : machine) : machine :=
  mkMachine (io m) (tempo_rotacao m) (modo_penalidade m)
    (contador_penalidade m) (ldr_estado m) (estado_rele m) (vidas m) q (pc m).

Definition set_pc (l : location) (m : machine) : machine :=
  mkMachine (io m) (tempo_rotacao m) (modo_penalidade m)
    (contador_penalidade m) (ldr_estado m) (estado_rele m) (vidas m)
    (rx m) l.

(** *** Interrupt routine: [ISR(TIMER1_COMPA_vect)] *)

Definition ISR (m : machine) : machine :=
  let m :=
    if modo_penalidade m =? 1 then
      let m := set_contador_penalidade (u8 (contador_penalidade m + 1)) m in
      if contador_penalidade m >=? 5 then
        m |> set_modo_penalidade 0
          |> set_contador_penalidade 0
          |> with_io (clear_bits PORTC (bit PC1))
      else m
    else m in
  if modo_penalidade m =? 0 then
    m |> with_io (toggle_bits PORTC (bit PC1))
      |> set_tempo_rotacao 1
  else
    m |> with_io (clear_bits PORTC (bit PC1)).

(** *** Motors *)

Definition motor_desligado (r : regs) : regs :=
  r |> set_bits DDRD (Z.lor (bit PD3) (bit PD6))
    |> store OCR0A 0
    |> store OCR2B 0
    |> store TCCR0A (Z.lor (Z.lor (Z.lor (bit COM0A1) (bit COM0A0)) (bit WGM01)) (bit WGM00))
    |> store TCCR2A (Z.lor (Z.lor (Z.lor (bit COM2B1) (bit COM2B0)) (bit WGM21)) (bit WGM20))
    |> store TCCR0B (Z.lor (bit CS01) (bit CS00))
    |> store TCCR2B (bit CS22).

Definition motor_ligado (r : regs) : regs :=
  r |> set_bits DDRD (Z.lor (bit PD3) (bit PD6))
    |> store OCR0A 255
    |> store OCR2B 255
    |> store TCCR0A (Z.lor (Z.lor (Z.lor (bit COM0A1) (bit COM0A0)) (bit WGM01)) (bit WGM00))
    |> store TCCR2A (Z.lor (Z.lor (Z.lor (bit COM2B1) (bit COM2B0)) (bit WGM21)) (bit WGM20))
    |> store TCCR0B (Z.lor (bit CS01) (bit CS00))
    |> store TCCR2B (bit CS22).

(** [liga_laser], as far as the modelled registers go (the Timer1 set-up
    only fixes the period of the interrupt). *)
Definition liga_laser (r : regs) : regs :=
  r |> set_bits DDRC (bit PC1)
    |> clear_bits PORTC (bit PC1).

(** *** [vida]: the hit pulse

    [vida_inicio] runs up to the busy wait, [vida_fim] from its exit to
    the end of the function. *)
Definition vida_inicio (m : machine) : machine :=
  m |> with_io (set_bits PORTD (bit PD0))
    |> with_io motor_ligado
    |> set_tempo_rotacao 0
    |> set_pc BusyWait.

Definition vida_fim (m : machine) : machine :=
  m |> set_tempo_rotacao 0
    |> set_modo_penalidade 1
    |> set_contador_penalidade 0
    |> with_io (clear_bits PORTC (bit PC1))
    |> set_pc LoopHead.

(** *** Command dispatch: the [switch (cmd)] of [main] *)

Definition dispatch (cmd velocidade : Z) (m : machine) : machine :=
  let velocidade_F_R := u8 (255 - velocidade) in
  match cmd with
  | 0xA1 =>
      if vidas m =? 0 then
        m |> set_vidas 3
          |> with_io (toggle_bits PORTC (Z.lor (bit PC4) (bit PC3)))
          |> with_io (toggle_bits PORTD (bit PD2))
      else m
  | 0xA2 => m |> with_io (toggle_bits PORTC (bit PC4))
  | 0xA3 => m |> with_io (toggle_bits PORTD (bit PD0))
  | 0xA4 => m |> with_io (toggle_bits PORTD (bit PD1))
  | 0xA5 =>
      if estado_rele m =? 0 then
        m |> with_io motor_ligado
          |> with_io (clear_bits PORTD (Z.lor (bit PD0) (bit PD1)))
          |> with_io (store OCR0A velocidade_F_R)
          |> with_io (store OCR2B velocidade_F_R)
      else m
  | 0xA6 =>
      m |> with_io motor_desligado
        |> with_io (clear_bits PORTD (Z.lor (bit PD0) (bit PD1)))
        |> set_estado_rele 0
  | 0xA7 =>
      m |> with_io (set_bits PORTD (Z.lor (bit PD0) (bit PD1)))
        |> with_io motor_ligado
        |> set_estado_rele 1
        |> with_io (store OCR0A velocidade_F_R)
        |> with_io (store OCR2B velocidade_F_R)
  | 0xA8 =>
      m |> with_io motor_ligado
        |> with_io (store OCR0A 0)
        |> with_io (store OCR2B velocidade)
  | 0xAA =>
      m |> with_io motor_ligado
        |> with_io (store OCR0A velocidade)
        |> with_io (store OCR2B 0)
  | 0xAB =>
      m |> with_io motor_ligado
        |> with_io (store OCR0A velocidade_F_R)
        |> with_io (store OCR2B (Z.shiftr velocidade 1))
  | 0xAC =>
      m |> with_io motor_ligado
        |> with_io (store OCR0A (Z.shiftr velocidade 1))
        |> with_io (store OCR2B velocidade_F_R)
  | 0xAD =>
      m |> with_io motor_ligado
        |> with_io (store OCR0A velocidade_F_R)
        |> with_io (store OCR2B (Z.shiftr velocidade 1))
  | 0xAE =>
      m |> with_io motor_ligado
        |> with_io (store OCR0A (Z.shiftr velocidade 1))
        |> with_io (store OCR2B velocidade_F_R)
  | _ => m
  end.

(** *** The body of [while(1)] *)

(** Modelled from the spec: [available()] of the Radio Link
    ([nrf24_avr.h] is not among the sources) tells whether a packet is
    pending. *)
Definition nrf24_available (m : machine) : bool :=
  match rx m with
  | [] => false
  | _ :: _ => true
  end.

(** Modelled from the spec: [read(buf,2)] of the Radio Link hands over the
    oldest pending packet and removes it from the radio.  [main] calls it
    only after [nrf24_available()]; with nothing pending the buffer is left
    as it is, here two zero bytes. *)
Definition nrf24_read (m : machine) : packet * machine :=
  match rx m with
  | [] => ((0, 0), m)
  | p :: q => (p, set_rx q m)
  end.

(** The [if (nrf24_available()) { ... }] block: a pending packet is read
    and dispatched. *)
Definition poll_radio (m : machine) : machine :=
  if nrf24_available m then
    let (dados_recebidos, m) := nrf24_read m in
    let cmd := fst dados_recebidos in
    let velocidade := snd dados_recebidos in
    dispatch cmd velocidade m
  else m.

(** The cascade on the light sensor, up to the busy wait of [vida] when a
    hit is taken. *)
Definition ldr_cascade (ldr_val : Z) (m : machine) : machine :=
  if (ldr_val <? 30) && (vidas m =? 3) && (ldr_estado m =? 0) then
    m |> set_vidas (u8 (vidas m - 1))
      |> with_io (clear_bits PORTC (bit PC3))
      |> set_ldr_estado 1
      |> vida_inicio
  else if (ldr_val <? 30) && (vidas m =? 2) && (ldr_estado m =? 0) then
    m |> set_vidas (u8 (vidas m - 1))
      |> with_io (clear_bits PORTC (bit PC4))
      |> set_ldr_estado 1
      |> vida_inicio
  else if (ldr_val <? 30) && (vidas m =? 1) && (ldr_estado m =? 0) then
    m |> set_vidas (u8 (vidas m - 1))
      |> with_io (clear_bits PORTD (bit PD2))
      |> set_ldr_estado 1
      |> vida_inicio
  else if ldr_val >? 30 then
    m |> set_ldr_estado 0
  else m.

(** One pass from the head of the loop; [ldr_val] is what [valor_ldr(0)]
    returns in it. *)
Definition loop_iteration (ldr_val : Z) (m : machine) : machine :=
  if modo_penalidade m =? 1 then
    m |> with_io motor_desligado
  else
    m |> poll_radio |> ldr_cascade ldr_val.

(** The main program runs from where it stands to the next head of the
    loop, or to the busy wait; in the busy wait it leaves only once
    [tempo_rotacao] is set. *)
Definition main_step (ldr_val : Z) (m : machine) : machine :=
  match pc m with
  | LoopHead => loop_iteration ldr_val m
  | BusyWait => if tempo_rotacao m =? 0 then m else vida_fim m
  end.

(** *** Runs

    The timer interrupt fires between two steps of the main program (an
    interrupt taken part-way through an iteration is not modelled); packets
    reach the radio at any time and queue there in order of arrival. *)
Inductive event : Type :=
| Tick
| Arrive (p : packet)
| Main (ldr_val : Z).

Definition step (m : machine) (e : event) : machine :=
  match e with
  | Tick => ISR m
  | Arrive p => set_rx (rx m ++ [p]) m
  | Main ldr_val => main_step ldr_val m
  end.

Definition run (evs : list event) (m : machine) : machine :=
  fold_left step evs m.

Definition ticks (evs : list event) : nat :=
  length (filter (fun e => match e with Tick => true | _ => false end) evs).

(** The machine when [main] reaches [while(1)]. *)
Definition boot : machine :=
  let r :=
    reset |> liga_laser
          |> motor_desligado
          |> set_bits DDRC (Z.lor (bit PC4) (bit PC3))
          |> set_bits DDRD (Z.lor (Z.lor (bit PD0) (bit PD1)) (bit PD2))
          |> toggle_bits PORTC (Z.lor (bit PC4) (bit PC3))
          |> toggle_bits PORTD (bit PD2) in
  mkMachine r 0 0 0 0 0 3 [] LoopHead.

(** *** Observations *)

(** The laser output, bit [PC1] of [PORTC]. *)
Definition laser (m : machine) : bool := Z.testbit (io m PORTC) PC1.

(** The two PWM compare values, [(OCR0A, OCR2B)]. *)
Definition duty (m : machine) : Z * Z := (io m OCR0A, io m OCR2B).

Definition penalized (m : machine) : Prop := modo_penalidade m = 1.

(** Normal state at the head of the loop with the hit latch clear: a
    reading below 30 taken now is a qualifying hit when lives remain. *)
Definition armed (m : machine) : Prop :=
  pc m = LoopHead /\ modo_penalidade m = 0 /\ ldr_estado m = 0.

Definition no_reset_pending (m : machine) : Prop :=
  Forall (fun p : packet => fst p <> wire_code RESET_LIVES) (rx m).

(** A hit: the iteration that reads [low], the tick that ends the busy
    wait of [vida], and the return of [vida]. *)
Definition hit_pulse (low : Z) : list event := [Main low; Tick; Main low].

(** A hit, the five ticks of its penalty, and an iteration that reads
    [high]. *)
Definition hit_cycle (low high : Z) : list event :=
  hit_pulse low ++ repeat Tick 5 ++ [Main high].

(** [held a b]: from [a] to [b] the latch was not cleared, lives went down
    by at most one, and not at all if the latch was set in [a] or is clear
    in [b]. *)
Definition held (a b : machine) : Prop :=
  (ldr_estado b = 0 -> ldr_estado a = 0) /\
  (ldr_estado b = 0 \/ ldr_estado a <> 0 -> vidas a <= vidas b) /\
  vidas a - 1 <= vidas b.

(** Every reading of the run is at most 30. *)
Definition sustained_low (evs : list event) : Prop :=
  Forall (fun e => match e with Main v => v <= 30 | _ => True end) evs.

(** *** Whole-machine notions *)

(** Packets dispatched one after the other, oldest first. *)
Definition dispatch_all (ps : list packet) (m : machine) : machine :=
  fold_left (fun m p => dispatch (fst p) (snd p) m) ps m.

(** The same machine, the registers compared one by one. *)
Definition same_state (a b : machine) : Prop :=
  (forall r, io a r = io b r) /\
  tempo_rotacao a = tempo_rotacao b /\
  modo_penalidade a = modo_penalidade b /\
  contador_penalidade a = contador_penalidade b /\
  ldr_estado a = ldr_estado b /\
  estado_rele a = estado_rele b /\
  vidas a = vidas b /\
  rx a = rx b /\ pc a = pc b.

(** What holds between the lives, the penalty state, the place in the
    program and the outputs at every point of every run from [boot]. *)
Definition consistent (m : machine) : Prop :=
  0 <= vidas m <= 3 /\
  (modo_penalidade m = 0 /\ contador_penalidade m = 0 \/
   modo_penalidade m = 1 /\ 0 <= contador_penalidade m <= 4 /\
   laser m = false /\ ldr_estado m = 1 /\ pc m = LoopHead) /\
  (pc m = BusyWait -> duty m = (255, 255) /\ ldr_estado m = 1) /\
  Z.testbit (io m PORTC) PC3 = (vidas m =? 3) /\
  Z.testbit (io m PORTD) PD2 = (1 <=? vidas m).

(** *** Hits and penalties along a run *)

(** 1 in the busy wait of [vida], 0 at the head of the loop. *)
Definition in_wait (m : machine) : Z :=
  match pc m with
  | BusyWait => 1
  | LoopHead => 0
  end.

(** The event is an iteration outside a penalty that reads below 30 with
    the hit latch clear. *)
Definition qualifying (m : machine) (e : event) : bool :=
  match e, pc m with
  | Main ldr_val, LoopHead =>
      negb (modo_penalidade m =? 1) && (ldr_val <? 30) && (ldr_estado m =? 0)
  | _, _ => false
  end.

(** The qualifying hits of a run. *)
Fixpoint hits (evs : list event) (m : machine) : Z :=
  match evs with
  | [] => 0
  | e :: rest => (if qualifying m e then 1 else 0) + hits rest (step m e)
  end.

(** The event sets the penalty flag. *)
Definition enters_penalty (m : machine) (e : event) : bool :=
  negb (modo_penalidade m =? 1) && (modo_penalidade (step m e) =? 1).

(** The penalties entered in a run. *)
Fixpoint penalties (evs : list event) (m : machine) : Z :=
  match evs with
  | [] => 0
  | e :: rest => (if enters_penalty m e then 1 else 0)
                 + penalties rest (step m e)
  end.

(** No RESET_LIVES reaches the radio. *)
Definition quiet_event (e : event) : Prop :=
  match e with
  | Arrive p => fst p <> wire_code RESET_LIVES
  | _ => True
  end.

Definition quiet (evs : list event) : Prop := Forall quiet_event evs.

(** The packets that reach the radio in a run, in order of arrival. *)
Definition arrivals (evs : list event) : list packet :=
  flat_map (fun e => match e with Arrive p => [p] | _ => [] end) evs.

End Receptor.

(** ** Transmitter *)

Module Transmissor.

Definition get_cmd (x y : Z) : Z :=
  let x_dir := if x <? 200 then -1 else if x >? 800 then 1 else 0 in
  let y_dir := if y <? 200 then -1 else if y >? 800 then 1 else 0 in
  let estado := u8 ((x_dir + 1) * 3 + (y_dir + 1)) in
  match estado with
  | 4 => 0xA6
  | 5 => 0xA7
  | 3 => 0xA5
  | 1 => 0xA8
  | 7 => 0xAA
  | 2 => 0xAB
  | 8 => 0xAC
  | 0 => 0xAD
  | 6 => 0xAE
  | _ => 0xA6
  end.

(** The computation of [velocidade_final] in [main]; [y] is a
    [uint16_t], the products are taken in [long]. *)
Definition velocidade_final (y : Z) : Z :=
  if y >? 800 then
    let temp_vel := long (u16 (y - 801) * 255) in
    let temp_vel := long (255 - Z.quot temp_vel 222) in
    let temp_vel := if temp_vel <? 0 then 0 else temp_vel in
    u8 temp_vel
  else if y <? 200 then
    let temp_vel := long (u16 (199 - y) * 255) in
    let temp_vel := long (255 - Z.quot temp_vel 199) in
    let temp_vel := if temp_vel <? 0 then 0 else temp_vel in
    u8 temp_vel
  else 255.

(** One pass of [while (1)]: [pind] is the value read from [PIND], [y] and
    [x] the two conversions; [data_packet] is the buffer as the previous
    pass left it, and the result is the buffer handed to [nrf24_write].
    The [case] labels [1 << PD0] to [1 << PD3] are 1, 2, 4 and 8. *)
Definition loop_iteration (pind x y : Z) (data_packet : packet) : packet :=
  let data_packet := (fst data_packet, velocidade_final y) in
  match Z.land (Z.lnot pind) 0x0F with
  | 1 => (0xA1, snd data_packet)
  | 2 => (0xA2, snd data_packet)
  | 4 => (0xA3, snd data_packet)
  | 8 => (0xA4, snd data_packet)
  | _ => (get_cmd x y, snd data_packet)
  end.

(** The buffers sent over successive passes. *)
Fixpoint transmit (samples : list (Z * Z * Z)) (data_packet : packet)
  : list packet :=
  match samples with
  | [] => []
  | (pind, x, y) :: rest =>
      let sent := loop_iteration pind x y data_packet in
      sent :: transmit rest sent
  end.

(** *** The encoder as the specification words it *)

Definition quantizeAxis (raw : Z) : Z :=
  if raw <? 200 then -1 else if raw >? 800 then 1 else 0.

Definition mapAxesToCommand (xDir yDir : Z) : option Command :=
  match xDir, yDir with
  | 0, 0 => Some STOP
  | 0, 1 => Some FORWARD
  | 0, -1 => Some REVERSE
  | -1, 0 => Some LEFT
  | 1, 0 => Some RIGHT
  | -1, 1 => Some FORWARD_LEFT
  | 1, 1 => Some FORWARD_RIGHT
  | -1, -1 => Some REVERSE_LEFT
  | 1, -1 => Some REVERSE_RIGHT
  | _, _ => None
  end.

Definition computeSpeed (y : Z) : Z :=
  if (200 <=? y) && (y <=? 800) then 255
  else if y >? 800 then Z.max 0 (255 - (y - 801) * 255 / 222)
  else Z.max 0 (255 - (199 - y) * 255 / 199).

(** The speed byte written as 255 minus the scaled deflection: the
    deflection of the [y] axis beyond the neutral band, scaled to 0..255. *)
Definition deflection (y : Z) : Z :=
  if y >? 800 then (y - 801) * 255 / 222
  else if y <? 200 then (199 - y) * 255 / 199
  else 0.

(** Button [k] (0 to 3) is pressed when bit [k] of [PIND] reads 0. *)
Definition pressed (pind : Z) (k : Z) : bool := negb (Z.testbit pind k).

Definition utility_code (k : Z) : Z :=
  match k with
  | 0 => wire_code RESET_LIVES
  | 1 => wire_code TOGGLE_A
  | 2 => wire_code TOGGLE_B
  | _ => wire_code TOGGLE_C
  end.

(** Exactly one of the four buttons is held. *)
Definition one_button (pind : Z) : Prop :=
  exists k, 0 <= k <= 3 /\ pressed pind k = true /\
            forall j, 0 <= j <= 3 -> j <> k -> pressed pind j = false.

Definition no_button (pind : Z) : Prop :=
  forall j, 0 <= j <= 3 -> pressed pind j = false.

End Transmissor.

(** * Properties *)

Import Avr Receptor.

(** ** Integers and registers *)

Lemma u8_small (z : Z) : 0 <= z <= 255 -> u8 z = z.
Proof. intros H. unfold u8. apply Z.mod_small. lia. Qed.

Lemma u8_idem (z : Z) : u8 (u8 z) = u8 z.
Proof. unfold u8. apply Z.mod_mod. discriminate. Qed.

Lemma u8_testbit (z n : Z) : 0 <= n < 8 -> Z.testbit (u8 z) n = Z.testbit z n.
Proof.
  intros H. unfold u8. change 256 with (2 ^ 8).
  apply Z.mod_pow2_bits_low. lia.
Qed.

Lemma half_range (s : Z) : 0 <= s <= 255 -> 0 <= Z.shiftr s 1 <= 255.
Proof.
  intros H. rewrite Z.shiftr_div_pow2 by lia. change (2 ^ 1) with 2.
  split; [apply Z.div_pos; lia | apply Z.div_le_upper_bound; lia].
Qed.

(** Reading back what a chain of stores wrote. *)
Ltac regs :=
  cbv [duty laser io with_io set_tempo_rotacao set_modo_penalidade
       set_contador_penalidade set_ldr_estado set_estado_rele set_vidas
       set_rx set_pc tempo_rotacao modo_penalidade contador_penalidade
       ldr_estado estado_rele vidas rx pc
       motor_ligado motor_desligado vida_inicio vida_fim
       store set_bits clear_bits toggle_bits reg_eqb].

(** ** Command dispatch *)

Section Dispatch.

Variable m : machine.
Variable s : Z.
Hypothesis s_byte : 0 <= s <= 255.

Lemma dispatch_forward :
  let m' := dispatch (wire_code FORWARD) s m in
  duty m' = (255 - s, 255 - s) /\ estado_rele m' = 1 /\
  Z.testbit (io m' PORTD) PD0 = true /\ Z.testbit (io m' PORTD) PD1 = true.
Proof.
  cbv [wire_code dispatch]. regs.
  rewrite (u8_small (255 - s)) by lia. rewrite (u8_small (255 - s)) by lia.
  repeat split; rewrite u8_testbit by (cbv; intuition congruence);
    rewrite Z.lor_spec; apply orb_true_r.
Qed.

Lemma dispatch_left_diagonal (c : Command) :
  c = FORWARD_LEFT \/ c = REVERSE_LEFT ->
  duty (dispatch (wire_code c) s m) = (255 - s, s / 2).
Proof.
  pose proof (half_range s s_byte) as Hh.
  intros [-> | ->]; cbv [wire_code dispatch]; regs;
    rewrite (u8_small (255 - s)) by lia;
    rewrite (u8_small (Z.shiftr s 1)) by lia;
    rewrite (u8_small (255 - s)) by lia;
    rewrite Z.shiftr_div_pow2 by lia; reflexivity.
Qed.

Lemma dispatch_right_diagonal (c : Command) :
  c = FORWARD_RIGHT \/ c = REVERSE_RIGHT ->
  duty (dispatch (wire_code c) s m) = (s / 2, 255 - s).
Proof.
  pose proof (half_range s s_byte) as Hh.
  intros [-> | ->]; cbv [wire_code dispatch]; regs;
    rewrite (u8_small (255 - s)) by lia;
    rewrite (u8_small (Z.shiftr s 1)) by lia;
    rewrite (u8_small (255 - s)) by lia;
    rewrite Z.shiftr_div_pow2 by lia; reflexivity.
Qed.

End Dispatch.

(** What no command touches: the latch, the penalty state, the pending
    packets and the place in the program; lives only go from 0 to 3. *)
Lemma dispatch_frame (cmd v : Z) (m : machine) :
  let m' := dispatch cmd v m in
  ldr_estado m' = ldr_estado m /\
  modo_penalidade m' = modo_penalidade m /\
  contador_penalidade m' = contador_penalidade m /\
  tempo_rotacao m' = tempo_rotacao m /\
  pc m' = pc m /\ rx m' = rx m /\
  (vidas m' = vidas m \/ cmd = 0xA1 /\ vidas m = 0 /\ vidas m' = 3).
Proof.
  assert (Hstay : forall m0 : machine,
    ldr_estado m0 = ldr_estado m0 /\ modo_penalidade m0 = modo_penalidade m0 /\
    contador_penalidade m0 = contador_penalidade m0 /\
    tempo_rotacao m0 = tempo_rotacao m0 /\ pc m0 = pc m0 /\ rx m0 = rx m0 /\
    (vidas m0 = vidas m0 \/ cmd = 0xA1 /\ vidas m0 = 0 /\ vidas m0 = 3))
    by (intros; repeat split; auto).
  unfold dispatch.
  destruct cmd as [|p|p]; [apply Hstay| |apply Hstay].
  do 8 (try (destruct p as [p|p|]; try apply Hstay)).
  all: cbv beta iota zeta.
  all: try (destruct (vidas m =? 0) eqn:Hv; [apply Z.eqb_eq in Hv|]).
  all: try destruct (estado_rele m =? 0).
  all: regs; repeat split; auto.
Qed.

(** ** Runs *)

Lemma run_app (a b : list event) (m : machine) :
  run (a ++ b) m = run b (run a m).
Proof. apply fold_left_app. Qed.

Lemma ticks_app (a b : list event) : ticks (a ++ b) = (ticks a + ticks b)%nat.
Proof. unfold ticks. rewrite filter_app, length_app. reflexivity. Qed.

(** ** The timer interrupt *)

Lemma laser_cleared (p : Z) :
  Z.testbit (u8 (Z.land p (Z.lnot (bit PC1)))) PC1 = false.
Proof.
  rewrite u8_testbit by (cbv; intuition congruence).
  rewrite Z.land_spec. apply andb_false_r.
Qed.

(** The interrupt leaves [main]'s own variables alone. *)
Lemma ISR_frame (m : machine) :
  vidas (ISR m) = vidas m /\ ldr_estado (ISR m) = ldr_estado m /\
  estado_rele (ISR m) = estado_rele m /\ rx (ISR m) = rx m /\
  pc (ISR m) = pc m /\ duty (ISR m) = duty m.
Proof.
  destruct m as [r tr mp cp le er vi q l]. unfold ISR. simpl.
  destruct (mp =? 1); simpl;
    [destruct (u8 (cp + 1) >=? 5); simpl|];
    try destruct (mp =? 0); try reflexivity; repeat split.
Qed.

(** A tick in the first four of a penalty: the counter advances, the laser
    is held off. *)
Lemma ISR_penalized (m : machine) :
  modo_penalidade m = 1 -> 0 <= contador_penalidade m < 4 ->
  modo_penalidade (ISR m) = 1 /\
  contador_penalidade (ISR m) = contador_penalidade m + 1 /\
  laser (ISR m) = false.
Proof.
  destruct m as [r tr mp cp le er vi q l]. simpl. intros -> Hc.
  unfold ISR. simpl. rewrite (u8_small (cp + 1)) by lia.
  destruct (Z.geb_spec (cp + 1) 5) as [H|H]; [lia|]. simpl.
  repeat split. unfold laser. regs. apply laser_cleared.
Qed.

(** The fifth tick: back to normal, counter at 0, and the tick is signalled
    to the main program. *)
Lemma ISR_fifth (m : machine) :
  modo_penalidade m = 1 -> contador_penalidade m = 4 ->
  modo_penalidade (ISR m) = 0 /\ contador_penalidade (ISR m) = 0 /\
  tempo_rotacao (ISR m) = 1.
Proof.
  destruct m as [r tr mp cp le er vi q l]. simpl. intros -> ->.
  unfold ISR. simpl. repeat split.
Qed.

(** A tick outside a penalty signals the main program. *)
Lemma ISR_normal (m : machine) :
  modo_penalidade m = 0 ->
  modo_penalidade (ISR m) = 0 /\ tempo_rotacao (ISR m) = 1 /\
  contador_penalidade (ISR m) = contador_penalidade m.
Proof.
  destruct m as [r tr mp cp le er vi q l]. simpl. intros ->.
  unfold ISR. simpl. repeat split.
Qed.

(** ** The main loop while penalized *)

Lemma main_step_penalized (v : Z) (m : machine) :
  modo_penalidade m = 1 -> pc m = LoopHead ->
  main_step v m = with_io motor_desligado m.
Proof.
  intros Hp Hl. unfold main_step, loop_iteration. rewrite Hl, Hp. reflexivity.
Qed.

(** The state of a penalty that began with the counter at 0, after a run
    with fewer than five ticks. *)
Lemma penalty_window (m : machine) (evs : list event) :
  modo_penalidade m = 1 -> contador_penalidade m = 0 ->
  pc m = LoopHead -> laser m = false ->
  (ticks evs < 5)%nat ->
  let m' := run evs m in
  modo_penalidade m' = 1 /\
  contador_penalidade m' = Z.of_nat (ticks evs) /\
  pc m' = LoopHead /\ laser m' = false /\
  vidas m' = vidas m /\ ldr_estado m' = ldr_estado m.
Proof.
  intros Hp Hc Hl Hoff. induction evs as [|e evs IH] using rev_ind.
  - intros _. simpl. auto 10.
  - rewrite ticks_app, run_app. intros Hn. simpl in *.
    destruct IH as (Ip & Ic & Il & Ioff & Iv & Ild); [lia|].
    set (m' := run evs m) in *.
    destruct e as [|p|v];
      [change (ticks [Tick]) with 1%nat in *
      |change (ticks [Arrive p]) with 0%nat in *
      |change (ticks [Main v]) with 0%nat in *]; simpl.
    + destruct (ISR_penalized m' Ip) as (Jp & Jc & Joff); [lia|].
      destruct (ISR_frame m') as (Fv & Fl & _ & _ & Fpc & _).
      repeat split; try congruence; lia.
    + repeat split; auto. lia.
    + rewrite (main_step_penalized v m' Ip Il).
      change (contador_penalidade (with_io motor_desligado m'))
        with (contador_penalidade m').
      repeat split; auto. lia.
Qed.

(** ** The main loop outside a penalty *)

Lemma poll_radio_nil (m : machine) : rx m = [] -> poll_radio m = m.
Proof.
  intros Hq. unfold poll_radio, nrf24_available. rewrite Hq. reflexivity.
Qed.

Lemma poll_radio_cons (m : machine) (cmd v : Z) (q : list packet) :
  rx m = (cmd, v) :: q -> poll_radio m = dispatch cmd v (set_rx q m).
Proof.
  intros Hq. unfold poll_radio, nrf24_available, nrf24_read.
  rewrite Hq. reflexivity.
Qed.

Lemma poll_radio_frame (m : machine) :
  let m' := poll_radio m in
  ldr_estado m' = ldr_estado m /\
  modo_penalidade m' = modo_penalidade m /\
  contador_penalidade m' = contador_penalidade m /\
  tempo_rotacao m' = tempo_rotacao m /\
  pc m' = pc m /\ rx m' = tl (rx m) /\
  (vidas m' = vidas m \/
   (exists v q, rx m = (wire_code RESET_LIVES, v) :: q) /\
   vidas m = 0 /\ vidas m' = 3).
Proof.
  destruct (rx m) as [|[cmd v] q] eqn:Hq.
  - rewrite (poll_radio_nil m Hq). simpl. rewrite Hq. auto 10.
  - rewrite (poll_radio_cons m cmd v q Hq).
    destruct (dispatch_frame cmd v (set_rx q m))
      as (Hl & Hp & Hc & Ht & Hpc & Hrx & Hv).
    simpl in *. repeat split; auto.
    destruct Hv as [Hv | (-> & H0 & H3)]; [left; exact Hv | right].
    repeat split; auto. exists v, q. reflexivity.
Qed.

Lemma no_reset_tl (m m' : machine) :
  no_reset_pending m -> rx m' = tl (rx m) -> no_reset_pending m'.
Proof.
  unfold no_reset_pending. intros H ->.
  destruct (rx m); simpl; [constructor | inversion H; assumption].
Qed.

Lemma poll_radio_keeps_lives (m : machine) :
  vidas m <> 0 \/ no_reset_pending m -> vidas (poll_radio m) = vidas m.
Proof.
  intros H. destruct (poll_radio_frame m) as (_ & _ & _ & _ & _ & _ & Hv).
  destruct Hv as [Hv | ((v & q & Hq) & H0 & _)]; [exact Hv|].
  destruct H as [H | H]; [contradiction|].
  unfold no_reset_pending in H. rewrite Hq in H. inversion H. simpl in *.
  contradiction.
Qed.

(** A qualifying hit with lives left: one life less, latch set, and the
    program waits in [vida] for the next tick. *)
Lemma hit_taken (m : machine) (v : Z) :
  armed m -> v < 30 -> 1 <= vidas m <= 3 ->
  let m1 := main_step v m in
  vidas m1 = vidas m - 1 /\ ldr_estado m1 = 1 /\ pc m1 = BusyWait /\
  tempo_rotacao m1 = 0 /\ modo_penalidade m1 = 0 /\ rx m1 = tl (rx m).
Proof.
  intros (Hl & Hp & Hld) Hv Hk.
  destruct (poll_radio_frame m) as (Fl & Fp & _ & _ & _ & Frx & _).
  assert (Fv : vidas (poll_radio m) = vidas m)
    by (apply poll_radio_keeps_lives; left; lia).
  unfold main_step, loop_iteration. rewrite Hl, Hp. simpl.
  set (m0 := poll_radio m) in *. unfold ldr_cascade.
  rewrite Fl, Hld, Fv. destruct (Z.ltb_spec v 30) as [_|?]; [|lia]. simpl.
  assert (Hc : vidas m = 3 \/ vidas m = 2 \/ vidas m = 1) by lia.
  destruct Hc as [Hc | [Hc | Hc]]; rewrite Hc; simpl; repeat split; auto;
    congruence.
Qed.

(** The tick that ends the busy wait and the return of [vida]: the penalty
    begins, counter at 0, laser off. *)
Lemma pulse_ends (m : machine) (v : Z) :
  pc m = BusyWait -> tempo_rotacao m = 0 -> modo_penalidade m = 0 ->
  let m1 := run [Tick; Main v] m in
  modo_penalidade m1 = 1 /\ contador_penalidade m1 = 0 /\
  pc m1 = LoopHead /\ laser m1 = false /\
  vidas m1 = vidas m /\ ldr_estado m1 = ldr_estado m /\ rx m1 = rx m.
Proof.
  intros Hl Ht Hp. simpl.
  destruct (ISR_normal m Hp) as (_ & It & _).
  destruct (ISR_frame m) as (Fv & Fl & _ & Frx & Fpc & _).
  unfold main_step. rewrite Fpc, Hl, It. simpl.
  repeat split; auto. unfold laser. regs. apply laser_cleared.
Qed.

(** Spinning in the busy wait changes nothing until the tick comes. *)
Lemma busy_wait_spins (m : machine) (v : Z) :
  pc m = BusyWait -> tempo_rotacao m = 0 -> main_step v m = m.
Proof. intros Hl Ht. unfold main_step. rewrite Hl, Ht. reflexivity. Qed.

(** An iteration outside a penalty with a reading above 30 clears the
    latch. *)
Lemma latch_cleared_above (m : machine) (v : Z) :
  pc m = LoopHead -> modo_penalidade m <> 1 -> 30 < v ->
  let m1 := main_step v m in
  ldr_estado m1 = 0 /\ pc m1 = LoopHead /\
  modo_penalidade m1 = modo_penalidade m /\
  vidas m1 = vidas (poll_radio m) /\ rx m1 = tl (rx m).
Proof.
  intros Hl Hp Hv.
  destruct (poll_radio_frame m) as (Fl & Fp & _ & _ & Fpc & Frx & _).
  unfold main_step, loop_iteration. rewrite Hl.
  destruct (Z.eqb_spec (modo_penalidade m) 1) as [?|_]; [contradiction|].
  simpl. set (m0 := poll_radio m) in *. unfold ldr_cascade.
  destruct (Z.ltb_spec v 30) as [?|_]; [lia|]. simpl.
  destruct (Z.gtb_spec v 30) as [_|?]; [|lia]. simpl.
  repeat split; congruence.
Qed.

(** An iteration outside a penalty with a reading of at most 30 and no hit
    to take leaves the latch, the lives of [poll_radio] and the penalty
    state as they are. *)
Lemma no_hit_iteration (m : machine) (v : Z) :
  pc m = LoopHead -> modo_penalidade m <> 1 -> v <= 30 ->
  ldr_estado m <> 0 \/ v = 30 \/ vidas (poll_radio m) = 0 ->
  main_step v m = poll_radio m.
Proof.
  intros Hl Hp Hv Hno.
  destruct (poll_radio_frame m) as (Fl & _).
  unfold main_step, loop_iteration. rewrite Hl.
  destruct (Z.eqb_spec (modo_penalidade m) 1) as [?|_]; [contradiction|].
  simpl. set (m0 := poll_radio m) in *. unfold ldr_cascade. rewrite Fl.
  destruct (Z.gtb_spec v 30) as [?|_]; [lia|].
  destruct Hno as [Hno | [-> | Hno]].
  - destruct (Z.eqb_spec (ldr_estado m) 0) as [?|_]; [contradiction|].
    rewrite !andb_false_r. reflexivity.
  - reflexivity.
  - rewrite Hno. simpl. rewrite !andb_false_r. reflexivity.
Qed.

(** Ticks alone leave [main]'s variables and the pending packets alone. *)
Lemma ticks_frame (n : nat) (m : machine) :
  let m' := run (repeat Tick n) m in
  vidas m' = vidas m /\ ldr_estado m' = ldr_estado m /\
  rx m' = rx m /\ pc m' = pc m.
Proof.
  revert m. induction n as [|n IH]; intros m; simpl; [auto|].
  destruct (IH (ISR m)) as (Hv & Hl & Hrx & Hpc).
  destruct (ISR_frame m) as (Fv & Fl & _ & Frx & Fpc & _).
  repeat split; congruence.
Qed.

(** The five ticks of a penalty that began with the counter at 0. *)
Lemma five_ticks (m : machine) :
  modo_penalidade m = 1 -> contador_penalidade m = 0 ->
  pc m = LoopHead -> laser m = false ->
  let m' := run (repeat Tick 5) m in
  modo_penalidade m' = 0 /\ contador_penalidade m' = 0 /\ pc m' = LoopHead /\
  vidas m' = vidas m /\ ldr_estado m' = ldr_estado m /\ rx m' = rx m.
Proof.
  intros Hp Hc Hl Hoff.
  destruct (ticks_frame 5 m) as (Fv & Fl & Frx & Fpc).
  cbv zeta. revert Fv Fl Frx Fpc.
  change (repeat Tick 5) with (repeat Tick 4 ++ [Tick]).
  rewrite run_app.
  destruct (penalty_window m (repeat Tick 4) Hp Hc Hl Hoff)
    as (Ip & Ic & _); [change (ticks (repeat Tick 4)) with 4%nat; lia|].
  change (Z.of_nat (ticks (repeat Tick 4))) with 4 in Ic.
  set (m4 := run (repeat Tick 4) m) in *.
  change (run [Tick] m4) with (ISR m4).
  destruct (ISR_fifth m4 Ip Ic) as (Jp & Jc & _).
  intros. repeat split; congruence.
Qed.

(** One hit with the latch clear and lives left, through its penalty, to
    the iteration in which the reading is back above 30. *)
Lemma hit_cycle_spec (m : machine) (low high : Z) :
  armed m -> no_reset_pending m -> low < 30 -> 30 < high ->
  1 <= vidas m <= 3 ->
  let p := run (hit_pulse low) m in
  let m' := run (hit_cycle low high) m in
  (vidas p = vidas m - 1 /\ penalized p /\ contador_penalidade p = 0 /\
   laser p = false) /\
  armed m' /\ no_reset_pending m' /\ vidas m' = vidas m - 1.
Proof.
  intros Ha Hq Hlow Hhigh Hk. unfold hit_cycle. rewrite run_app.
  change (run (hit_pulse low) m)
    with (run [Tick; Main low] (main_step low m)).
  destruct (hit_taken m low Ha Hlow Hk) as (Hv & Hld & Hpc & Ht & Hp & Hrx).
  set (m1 := main_step low m) in *.
  destruct (pulse_ends m1 low Hpc Ht Hp)
    as (Pp & Pc & Ppc & Poff & Pv & Pld & Prx).
  set (p := run [Tick; Main low] m1) in *. cbv zeta.
  split; [unfold penalized; repeat split; auto; congruence|].
  rewrite run_app.
  destruct (five_ticks p Pp Pc Ppc Poff) as (Tp & _ & Tpc & Tv & Tld & Trx).
  set (m5 := run (repeat Tick 5) p) in *.
  assert (Hq5 : no_reset_pending m5).
  { apply (no_reset_tl m m5 Hq). congruence. }
  assert (Tn : modo_penalidade m5 <> 1) by lia.
  destruct (latch_cleared_above m5 high Tpc Tn Hhigh)
    as (Ll & Lpc & Lp & Lv & Lrx).
  rewrite (poll_radio_keeps_lives m5 (or_intror Hq5)) in Lv.
  change (run [Main high] m5) with (main_step high m5).
  repeat split; try congruence.
  apply (no_reset_tl m5 _ Hq5 Lrx).
Qed.

(** At 0 lives a reading below 30 costs nothing and starts nothing. *)
Lemma hit_at_zero_lives (m : machine) (v : Z) :
  armed m -> no_reset_pending m -> v < 30 -> vidas m = 0 ->
  let m1 := main_step v m in
  vidas m1 = 0 /\ modo_penalidade m1 = 0 /\ pc m1 = LoopHead.
Proof.
  intros (Hl & Hp & Hld) Hq Hv H0.
  pose proof (poll_radio_keeps_lives m (or_intror Hq)) as Fv.
  destruct (poll_radio_frame m) as (_ & Fp & _ & _ & Fpc & _).
  assert (E : main_step v m = poll_radio m).
  { apply no_hit_iteration; [exact Hl | lia | lia |].
    right; right. congruence. }
  cbv zeta. rewrite E. repeat split; congruence.
Qed.

Lemma dispatch_reset (m : machine) (s : Z) :
  (vidas m = 0 -> vidas (dispatch (wire_code RESET_LIVES) s m) = 3) /\
  (vidas m <> 0 -> dispatch (wire_code RESET_LIVES) s m = m).
Proof.
  cbv [wire_code dispatch]. split; intros H.
  - rewrite H. reflexivity.
  - destruct (Z.eqb_spec (vidas m) 0); [contradiction | reflexivity].
Qed.

(** ** A reading that stays low *)

Lemma held_refl (a : machine) : held a a.
Proof. unfold held. repeat split; auto; lia. Qed.

Lemma held_trans (a b c : machine) : held a b -> held b c -> held a c.
Proof.
  unfold held. intros (A1 & A2 & A3) (B1 & B2 & B3).
  destruct (Z.eq_dec (ldr_estado b) 0) as [Hb | Hb].
  - repeat split; [auto | | lia].
    intros [Hc | Ha]; [|specialize (A1 Hb); contradiction].
    specialize (B2 (or_introl Hc)). specialize (A2 (or_introl Hb)). lia.
  - assert (Hbc : vidas b <= vidas c) by (apply B2; right; exact Hb).
    repeat split; [intros Hc; specialize (B1 Hc); contradiction | | lia].
    intros [Hc | Ha]; [specialize (B1 Hc); contradiction|].
    specialize (A2 (or_intror Ha)). lia.
Qed.

Lemma ldr_cascade_held (v : Z) (m : machine) :
  v <= 30 -> held m (ldr_cascade v m).
Proof.
  intros Hv. unfold ldr_cascade.
  destruct (Z.gtb_spec v 30) as [?|_]; [lia|].
  destruct (Z.eqb_spec (ldr_estado m) 0) as [Hl | Hl];
    [|rewrite !andb_false_r; apply held_refl].
  destruct (v <? 30); [|apply held_refl]. simpl. rewrite !andb_true_r.
  destruct (Z.eqb_spec (vidas m) 3) as [H3 | _];
    [|destruct (Z.eqb_spec (vidas m) 2) as [H2 | _];
      [|destruct (Z.eqb_spec (vidas m) 1) as [H1 | _];
        [|apply held_refl]]].
  all: unfold held; simpl.
  - rewrite H3. repeat split; [discriminate | intros [?|?]; congruence | cbv; discriminate].
  - rewrite H2. repeat split; [discriminate | intros [?|?]; congruence | cbv; discriminate].
  - rewrite H1. repeat split; [discriminate | intros [?|?]; congruence | cbv; discriminate].
Qed.

Lemma poll_radio_held (m : machine) : held m (poll_radio m).
Proof.
  destruct (poll_radio_frame m) as (Fl & _ & _ & _ & _ & _ & Fv).
  unfold held. rewrite Fl.
  destruct Fv as [Fv | (_ & H0 & H3)]; repeat split; auto; lia.
Qed.

Lemma step_held (m : machine) (e : event) :
  match e with Main v => v <= 30 | _ => True end -> held m (step m e).
Proof.
  destruct e as [|p|v]; simpl; intros Hv.
  - destruct (ISR_frame m) as (Fv & Fl & _).
    unfold held. rewrite Fv, Fl. repeat split; auto; lia.
  - unfold held. simpl. repeat split; auto; lia.
  - unfold main_step, loop_iteration. destruct (pc m).
    + destruct (modo_penalidade m =? 1);
        [unfold held; simpl; repeat split; auto; lia|].
      eapply held_trans; [apply poll_radio_held | apply ldr_cascade_held, Hv].
    + destruct (tempo_rotacao m =? 0);
        [apply held_refl | unfold held; simpl; repeat split; auto; lia].
Qed.

Lemma run_held (evs : list event) (m : machine) :
  sustained_low evs -> held m (run evs m).
Proof.
  unfold sustained_low. revert m.
  induction evs as [|e evs IH]; intros m H; [apply held_refl|].
  inversion H as [|? ? He Hevs]; subst. simpl.
  eapply held_trans; [apply step_held, He | apply IH, Hevs].
Qed.

Lemma ldr_cascade_estado_rele (v : Z) (m : machine) :
  estado_rele (ldr_cascade v m) = estado_rele m.
Proof.
  unfold ldr_cascade.
  repeat match goal with
         | |- context [if ?b then _ else _] => destruct b
         end; reflexivity.
Qed.

Lemma ldr_cascade_no_hit (v : Z) (m : machine) :
  30 <= v -> duty (ldr_cascade v m) = duty m.
Proof.
  intros Hv. unfold ldr_cascade.
  destruct (Z.ltb_spec v 30) as [?|_]; [lia|]. simpl.
  destruct (v >? 30); reflexivity.
Qed.

Lemma main_step_normal (v : Z) (m : machine) :
  pc m = LoopHead -> modo_penalidade m <> 1 ->
  main_step v m = ldr_cascade v (poll_radio m).
Proof.
  intros Hl Hp. unfold main_step, loop_iteration. rewrite Hl.
  destruct (Z.eqb_spec (modo_penalidade m) 1); [contradiction | reflexivity].
Qed.

(** * The claims *)

(** ** Command dispatcher *)

(** C1, as the claim states it, does not hold: FORWARD with speed byte 200,
    received with the forward flag clear, leaves both compare values at 55,
    not at 200. *)
Lemma forward_duty_counterexample :
  let m := set_rx [(wire_code FORWARD, 200)] boot in
  (modo_penalidade m = 0 /\ estado_rele m = 0) /\
  duty (main_step 500 m) = (55, 55) /\
  duty (main_step 500 m) <> (200, 200).
Proof. vm_compute. repeat split; discriminate. Qed.

(** C1, amended: a FORWARD packet with speed byte [s] received outside a
    penalty sets both direction outputs, sets the forward flag and leaves both
    wheels at duty [255 - s]; the iteration that receives it keeps that duty
    unless it also takes a hit. *)
Theorem forward_engages_at_complement
  (m : machine) (s ldr_val : Z) (q : list packet) :
  0 <= s <= 255 ->
  pc m = LoopHead -> modo_penalidade m <> 1 ->
  rx m = (wire_code FORWARD, s) :: q ->
  let m' := poll_radio m in
  (duty m' = (255 - s, 255 - s) /\ estado_rele m' = 1 /\
   Z.testbit (io m' PORTD) PD0 = true /\ Z.testbit (io m' PORTD) PD1 = true /\
   rx m' = q) /\
  estado_rele (main_step ldr_val m) = 1 /\
  (30 <= ldr_val -> duty (main_step ldr_val m) = (255 - s, 255 - s)).
Proof.
  intros Hs Hl Hp Hq. rewrite (main_step_normal ldr_val m Hl Hp).
  rewrite ldr_cascade_estado_rele.
  rewrite (poll_radio_cons m _ s q Hq).
  destruct (dispatch_forward (set_rx q m) s Hs) as (Hd & He & H0 & H1).
  destruct (dispatch_frame (wire_code FORWARD) s (set_rx q m))
    as (_ & _ & _ & _ & _ & Hrx & _).
  cbv zeta. repeat split; auto.
  intros Hv. rewrite ldr_cascade_no_hit by exact Hv. exact Hd.
Qed.

Lemma forward_engages_at_complement_witness :
  let m := set_rx [(wire_code FORWARD, 200)] boot in
  estado_rele (main_step 500 m) = 1 /\
  duty (main_step 500 m) = (255 - 200, 255 - 200).
Proof.
  intros m.
  pose proof (forward_engages_at_complement m 200 500 []) as H.
  cbv zeta in H.
  destruct H as (_ & He & Hd);
    [lia | reflexivity | discriminate | reflexivity |].
  split; [exact He | apply Hd; lia].
Defined.

(** C8, as the claim states it, does not hold: FORWARD_LEFT with speed byte
    200 leaves the compare values at (55, 100); neither wheel is at the full
    value 200 the claim gives the forward variants. *)
Lemma diagonal_duty_counterexample :
  let m := set_rx [(wire_code FORWARD_LEFT, 200)] boot in
  modo_penalidade m = 0 /\
  duty (main_step 500 m) = (55, 100) /\
  fst (duty (main_step 500 m)) <> 200 /\
  snd (duty (main_step 500 m)) <> 200.
Proof. vm_compute. repeat split; discriminate. Qed.

(** C8, amended: for each of the four diagonal commands with speed byte [s]
    received outside a penalty, one wheel is set to [s / 2] and the other to
    [255 - s], forward and reverse variants alike: the left variants set
    [(OCR0A, OCR2B)] to [(255 - s, s / 2)], the right variants to
    [(s / 2, 255 - s)]. *)
Theorem diagonal_turns_use_complement
  (m : machine) (c : Command) (s : Z) (q : list packet) :
  0 <= s <= 255 ->
  pc m = LoopHead -> modo_penalidade m <> 1 ->
  rx m = (wire_code c, s) :: q ->
  (c = FORWARD_LEFT \/ c = REVERSE_LEFT ->
   duty (poll_radio m) = (255 - s, s / 2) /\
   forall v, 30 <= v -> duty (main_step v m) = (255 - s, s / 2)) /\
  (c = FORWARD_RIGHT \/ c = REVERSE_RIGHT ->
   duty (poll_radio m) = (s / 2, 255 - s) /\
   forall v, 30 <= v -> duty (main_step v m) = (s / 2, 255 - s)).
Proof.
  intros Hs Hl Hp Hq.
  pose proof (poll_radio_cons m _ s q Hq) as E.
  split; intros Hc; (split; [|intros v Hv;
    rewrite (main_step_normal v m Hl Hp), ldr_cascade_no_hit by exact Hv]);
    rewrite E.
  1, 2: apply dispatch_left_diagonal; assumption.
  1, 2: apply dispatch_right_diagonal; assumption.
Qed.

Lemma diagonal_turns_use_complement_witness :
  let m := set_rx [(wire_code REVERSE_RIGHT, 200)] boot in
  duty (poll_radio m) = (200 / 2, 255 - 200).
Proof.
  intros m.
  pose proof (diagonal_turns_use_complement m REVERSE_RIGHT 200 []) as H.
  destruct H as (_ & H); [lia | reflexivity | discriminate | reflexivity |].
  apply H. right. reflexivity.
Defined.

(** C10: for every speed byte and every state, REVERSE_LEFT is dispatched
    exactly as FORWARD_LEFT and REVERSE_RIGHT exactly as FORWARD_RIGHT; the
    forward flag is neither read nor written by them, so with the flag set,
    where plain REVERSE does nothing, they still drive the wheels. *)
Theorem reverse_diagonals_as_forward_diagonals (m : machine) (s : Z) :
  dispatch (wire_code REVERSE_LEFT) s m
    = dispatch (wire_code FORWARD_LEFT) s m /\
  dispatch (wire_code REVERSE_RIGHT) s m
    = dispatch (wire_code FORWARD_RIGHT) s m /\
  (forall f,
     dispatch (wire_code REVERSE_LEFT) s (set_estado_rele f m)
       = set_estado_rele f (dispatch (wire_code REVERSE_LEFT) s m) /\
     dispatch (wire_code REVERSE_RIGHT) s (set_estado_rele f m)
       = set_estado_rele f (dispatch (wire_code REVERSE_RIGHT) s m)) /\
  dispatch (wire_code REVERSE) s (set_estado_rele 1 m) = set_estado_rele 1 m /\
  duty (dispatch (wire_code REVERSE_LEFT) s (set_estado_rele 1 m))
    = (u8 (255 - s), u8 (Z.shiftr s 1)) /\
  duty (dispatch (wire_code REVERSE_RIGHT) s (set_estado_rele 1 m))
    = (u8 (Z.shiftr s 1), u8 (255 - s)).
Proof.
  repeat split; cbv [wire_code dispatch]; regs;
    rewrite ?u8_idem; reflexivity.
Qed.

(** ** Penalty and lives *)

(** C2, as the claim states it, does not hold: two packets that reach the
    radio during a penalty are both still pending after the iterations that
    follow them; the motors are disengaged, the radio is not read. *)
Lemma penalty_drain_counterexample :
  let p1 := (wire_code FORWARD, 200) in
  let p2 := (wire_code STOP, 255) in
  let m := run (hit_pulse 10) boot in
  let m' := run [Arrive p1; Main 500; Arrive p2; Main 500] m in
  penalized m /\ pc m = LoopHead /\ rx m = [] /\
  penalized m' /\ duty m' = (0, 0) /\ rx m' = [p1; p2] /\
  rx (main_step 500 m') <> tl (rx m').
Proof. vm_compute. repeat split; discriminate. Qed.

(** C2, amended: an iteration of the main loop run while the penalty is
    active forces the motors disengaged and does nothing else; the radio is
    not polled and no packet is read, so a packet that arrives during the
    penalty stays pending. *)
Theorem penalized_iteration_only_stops_motors
  (m : machine) (ldr_val : Z) :
  penalized m -> pc m = LoopHead ->
  let m' := main_step ldr_val m in
  m' = with_io motor_desligado m /\
  duty m' = (0, 0) /\
  rx m' = rx m /\
  (forall p, rx (main_step ldr_val (step m (Arrive p))) = rx m ++ [p]).
Proof.
  intros Hp Hl. cbv zeta. rewrite (main_step_penalized ldr_val m Hp Hl).
  repeat split. intros p.
  rewrite main_step_penalized; [reflexivity | exact Hp | exact Hl].
Qed.

Lemma penalized_iteration_only_stops_motors_witness :
  let m := run (hit_pulse 10 ++ [Arrive (wire_code FORWARD, 200)]) boot in
  penalized m /\ duty (main_step 500 m) = (0, 0) /\
  rx (main_step 500 m) = rx m.
Proof.
  intros m.
  assert (Hp : penalized m) by (vm_compute; reflexivity).
  assert (Hl : pc m = LoopHead) by (vm_compute; reflexivity).
  pose proof (penalized_iteration_only_stops_motors m 500 Hp Hl) as H.
  cbv zeta in H. destruct H as (_ & Hd & Hrx & _).
  split; [exact Hp|]. split; [exact Hd | exact Hrx].
Defined.

(** C4: from the return of [vida], where the penalty begins with the
    counter at 0, a run with fewer than five ticks is still penalized, with
    the counter at the number of ticks and the laser off; an iteration there
    leaves the motors disengaged whatever packet has arrived; the fifth tick
    clears the penalty and resets the counter. *)
Theorem penalty_lasts_five_ticks (m0 : machine) (evs : list event) :
  (ticks evs < 5)%nat ->
  let m := vida_fim m0 in
  let m' := run evs m in
  (penalized m /\ contador_penalidade m = 0) /\
  (penalized m' /\ contador_penalidade m' = Z.of_nat (ticks evs) /\
   laser m' = false) /\
  (forall v p,
     let m'' := main_step v (step m' (Arrive p)) in
     duty m'' = (0, 0) /\ io m'' = io (main_step v m') /\
     penalized m'' /\ laser m'' = false) /\
  (ticks evs = 4%nat ->
   modo_penalidade (step m' Tick) = 0 /\
   contador_penalidade (step m' Tick) = 0).
Proof.
  intros Hn. cbv zeta.
  assert (Hoff : laser (vida_fim m0) = false)
    by (unfold laser; regs; apply laser_cleared).
  destruct (penalty_window (vida_fim m0) evs eq_refl eq_refl eq_refl Hoff Hn)
    as (Ip & Ic & Il & Ioff & _).
  set (m' := run evs (vida_fim m0)) in *.
  split; [split; reflexivity|]. split; [auto|]. split.
  - intros v p. rewrite (main_step_penalized v m' Ip Il).
    rewrite main_step_penalized; [|exact Ip | exact Il].
    repeat split; [exact Ip | exact Ioff].
  - intros H4. simpl.
    destruct (ISR_fifth m' Ip) as (Jp & Jc & _);
      [rewrite Ic, H4; reflexivity | split; assumption].
Qed.

Lemma penalty_lasts_five_ticks_witness :
  let evs := [Main 500; Tick; Arrive (wire_code FORWARD, 200); Main 500;
              Tick; Tick; Main 10; Tick] in
  let m' := run evs (vida_fim (run [Main 10; Tick] boot)) in
  (ticks evs < 5)%nat /\
  penalized m' /\ laser m' = false /\ modo_penalidade (step m' Tick) = 0.
Proof.
  intros evs m'.
  assert (Hn : (ticks evs < 5)%nat) by (vm_compute; lia).
  pose proof (penalty_lasts_five_ticks (run [Main 10; Tick] boot) evs Hn)
    as H.
  cbv zeta in H. destruct H as (_ & (Hp & _ & Hoff) & _ & H5).
  split; [exact Hn|]. split; [exact Hp|]. split; [exact Hoff|].
  apply H5. reflexivity.
Defined.

(** C5, as the claim states it, does not hold: after a hit and its penalty,
    an iteration outside the penalty that reads exactly 30 leaves the latch
    set. *)
Lemma latch_at_threshold_counterexample :
  let m := run (hit_pulse 10 ++ repeat Tick 5) boot in
  pc m = LoopHead /\ modo_penalidade m = 0 /\ ldr_estado m = 1 /\
  ldr_estado (main_step 30 m) = 1.
Proof. vm_compute. repeat split. Qed.

(** C5, amended: the hit latch is cleared in any iteration outside a penalty
    whose reading is strictly greater than 30; a reading of exactly 30
    leaves the latch as it is; and over any run whose readings all stay at
    or below 30, lives go down at most once, and not at all when the latch
    is already set. *)
Theorem latch_clears_above_threshold
  (m : machine) (v : Z) (evs : list event) :
  (pc m = LoopHead -> modo_penalidade m <> 1 -> 30 < v ->
   ldr_estado (main_step v m) = 0) /\
  (pc m = LoopHead -> modo_penalidade m <> 1 ->
   ldr_estado (main_step 30 m) = ldr_estado m) /\
  (sustained_low evs ->
   vidas m - 1 <= vidas (run evs m) /\
   (ldr_estado m <> 0 ->
    vidas m <= vidas (run evs m) /\ ldr_estado (run evs m) <> 0)).
Proof.
  repeat split.
  - intros Hl Hp Hv. apply latch_cleared_above; assumption.
  - intros Hl Hp. rewrite no_hit_iteration; auto; [|lia].
    apply poll_radio_frame.
  - apply (run_held evs m H).
  - apply (run_held evs m H). right. assumption.
  - intros Hc. apply (run_held evs m H) in Hc. contradiction.
Qed.

Lemma latch_clears_above_threshold_witness :
  let m := run (hit_pulse 10 ++ repeat Tick 5) boot in
  ldr_estado (main_step 31 m) = 0 /\
  ldr_estado (main_step 30 m) = ldr_estado m /\
  vidas boot - 1 <= vidas (run (hit_cycle 10 30 ++ [Main 10; Main 30]) boot).
Proof.
  intros m.
  assert (Hl : pc m = LoopHead) by (vm_compute; reflexivity).
  assert (Hp : modo_penalidade m <> 1) by (vm_compute; discriminate).
  destruct (latch_clears_above_threshold m 31 []) as (Habove & Hat & _).
  destruct (latch_clears_above_threshold boot 31
              (hit_cycle 10 30 ++ [Main 10; Main 30])) as (_ & _ & Hlow).
  split; [apply Habove; [exact Hl | exact Hp | lia]|].
  split; [apply Hat; [exact Hl | exact Hp]|].
  apply Hlow. repeat constructor; lia.
Defined.

(** ** Transmitter *)

Import Transmissor.

(** C6: for all readings [x], [y] in 0..1023 the command byte [get_cmd]
    returns is the wire code of the command the 3 x 3 table gives for the
    quantized axes: (0,0) STOP, (0,+1) FORWARD, (0,-1) REVERSE, (-1,0) LEFT,
    (+1,0) RIGHT, (-1,+1) FORWARD_LEFT, (+1,+1) FORWARD_RIGHT,
    (-1,-1) REVERSE_LEFT, (+1,-1) REVERSE_RIGHT. *)
Theorem get_cmd_table (x y : Z) :
  0 <= x <= 1023 -> 0 <= y <= 1023 ->
  option_map wire_code (mapAxesToCommand (quantizeAxis x) (quantizeAxis y))
    = Some (get_cmd x y).
Proof.
  intros _ _. unfold get_cmd, quantizeAxis.
  destruct (x <? 200); destruct (x >? 800);
    destruct (y <? 200); destruct (y >? 800); reflexivity.
Qed.

Lemma get_cmd_table_witness :
  map (fun xy => get_cmd (fst xy) (snd xy))
      [(500, 500); (500, 801); (500, 199); (199, 500); (801, 500);
       (0, 1023); (1023, 1023); (0, 0); (1023, 0)]
  = map wire_code
      [STOP; FORWARD; REVERSE; LEFT; RIGHT;
       FORWARD_LEFT; FORWARD_RIGHT; REVERSE_LEFT; REVERSE_RIGHT].
Proof.
  assert (H : forall x y c, 0 <= x <= 1023 -> 0 <= y <= 1023 ->
            mapAxesToCommand (quantizeAxis x) (quantizeAxis y) = Some c ->
            get_cmd x y = wire_code c).
  { intros x y c Hx Hy Hc. pose proof (get_cmd_table x y Hx Hy) as H.
    rewrite Hc in H. simpl in H. congruence. }
  simpl map.
  repeat (f_equal; [apply H; [lia | lia | reflexivity]|]).
  reflexivity.
Defined.

(** *** Speed *)

Lemma long_small (z : Z) : -2147483648 <= z < 2147483648 -> long z = z.
Proof. intros H. unfold long. rewrite Z.mod_small; lia. Qed.

Lemma u16_small (z : Z) : 0 <= z < 65536 -> u16 z = z.
Proof. intros H. unfold u16. apply Z.mod_small. lia. Qed.

(** The scaled deflection [d * 255 / span] stays within a byte. *)
Lemma scaled_range (d span : Z) :
  0 < span -> 0 <= d <= span -> 0 <= d * 255 / span <= 255.
Proof.
  intros Hs Hd. split.
  - apply Z.div_pos; lia.
  - apply Z.div_le_upper_bound; lia.
Qed.

Lemma scaled_mono (d d' span : Z) :
  0 < span -> d <= d' -> d * 255 / span <= d' * 255 / span.
Proof. intros Hs Hd. apply Z.div_le_mono; lia. Qed.

Lemma velocidade_final_high (y : Z) :
  800 < y <= 1023 ->
  velocidade_final y = 255 - (y - 801) * 255 / 222.
Proof.
  intros Hy. unfold velocidade_final.
  destruct (Z.gtb_spec y 800) as [_|?]; [|lia].
  pose proof (scaled_range (y - 801) 222 ltac:(lia) ltac:(lia)) as Hr.
  rewrite (u16_small (y - 801)) by lia.
  rewrite (long_small ((y - 801) * 255)) by lia.
  rewrite Z.quot_div_nonneg by lia.
  rewrite long_small by lia.
  destruct (Z.ltb_spec (255 - (y - 801) * 255 / 222) 0) as [?|_]; [lia|].
  apply u8_small. lia.
Qed.

Lemma velocidade_final_low (y : Z) :
  0 <= y < 200 ->
  velocidade_final y = 255 - (199 - y) * 255 / 199.
Proof.
  intros Hy. unfold velocidade_final.
  destruct (Z.gtb_spec y 800) as [?|_]; [lia|].
  destruct (Z.ltb_spec y 200) as [_|?]; [|lia].
  pose proof (scaled_range (199 - y) 199 ltac:(lia) ltac:(lia)) as Hr.
  rewrite (u16_small (199 - y)) by lia.
  rewrite (long_small ((199 - y) * 255)) by lia.
  rewrite Z.quot_div_nonneg by lia.
  rewrite long_small by lia.
  destruct (Z.ltb_spec (255 - (199 - y) * 255 / 199) 0) as [?|_]; [lia|].
  apply u8_small. lia.
Qed.

Lemma velocidade_final_neutral (y : Z) :
  200 <= y <= 800 -> velocidade_final y = 255.
Proof.
  intros Hy. unfold velocidade_final.
  destruct (Z.gtb_spec y 800) as [?|_]; [lia|].
  destruct (Z.ltb_spec y 200) as [?|_]; [lia | reflexivity].
Qed.

Lemma velocidade_final_byte (y : Z) :
  0 <= y <= 1023 -> 0 <= velocidade_final y <= 255.
Proof.
  intros Hy.
  destruct (Z_lt_le_dec y 200) as [Hlo | Hlo];
    [|destruct (Z_lt_le_dec 800 y) as [Hhi | Hhi]].
  - rewrite velocidade_final_low by lia.
    pose proof (scaled_range (199 - y) 199 ltac:(lia) ltac:(lia)). lia.
  - rewrite velocidade_final_high by lia.
    pose proof (scaled_range (y - 801) 222 ltac:(lia) ltac:(lia)). lia.
  - rewrite velocidade_final_neutral by lia. lia.
Qed.

Lemma velocidade_final_computeSpeed (y : Z) :
  0 <= y <= 1023 -> velocidade_final y = computeSpeed y.
Proof.
  intros Hy. unfold computeSpeed.
  destruct (Z_lt_le_dec y 200) as [Hlo | Hlo];
    [|destruct (Z_lt_le_dec 800 y) as [Hhi | Hhi]].
  - rewrite velocidade_final_low by lia.
    pose proof (scaled_range (199 - y) 199 ltac:(lia) ltac:(lia)).
    destruct (Z.leb_spec 200 y) as [?|_]; [lia|]. cbn [andb].
    destruct (Z.gtb_spec y 800) as [?|_]; lia.
  - rewrite velocidade_final_high by lia.
    pose proof (scaled_range (y - 801) 222 ltac:(lia) ltac:(lia)).
    destruct (Z.leb_spec y 800) as [?|_]; [lia|]. rewrite andb_false_r.
    destruct (Z.gtb_spec y 800) as [_|?]; lia.
  - rewrite velocidade_final_neutral by lia.
    destruct (Z.leb_spec 200 y) as [_|?]; [|lia].
    destruct (Z.leb_spec y 800) as [_|?]; [reflexivity | lia].
Qed.

(** Pushing the stick further up from the centre never raises the speed
    byte. *)
Lemma velocidade_final_up (y y' : Z) :
  500 <= y -> y <= y' -> y' <= 1023 ->
  velocidade_final y' <= velocidade_final y.
Proof.
  intros Hc Hyy Hy'.
  destruct (Z_lt_le_dec 800 y) as [Hhi | Hhi].
  - rewrite !velocidade_final_high by lia.
    pose proof (scaled_mono (y - 801) (y' - 801) 222 ltac:(lia) ltac:(lia)).
    lia.
  - rewrite (velocidade_final_neutral y) by lia.
    apply velocidade_final_byte. lia.
Qed.

(** Pushing the stick further down from the centre never raises the speed
    byte. *)
Lemma velocidade_final_down (y y' : Z) :
  y <= 500 -> y' <= y -> 0 <= y' ->
  velocidade_final y' <= velocidade_final y.
Proof.
  intros Hc Hyy Hy'.
  destruct (Z_lt_le_dec y 200) as [Hlo | Hlo].
  - rewrite !velocidade_final_low by lia.
    pose proof (scaled_mono (199 - y) (199 - y') 199 ltac:(lia) ltac:(lia)).
    lia.
  - rewrite (velocidade_final_neutral y) by lia.
    apply velocidade_final_byte. lia.
Qed.

(** C7, as the claim states it, does not hold: the speed byte does not
    follow [|y - 500|] across the two sides of the centre.  The reading 100
    is 400 from the centre and gives 129; the reading 901 is 401 from the
    centre, further out, and gives 141, more. *)
Lemma speed_across_sides_counterexample :
  (100 < 200 /\ 800 < 901) /\
  Z.abs (100 - 500) < Z.abs (901 - 500) /\
  velocidade_final 100 = 129 /\ velocidade_final 901 = 141 /\
  ~ velocidade_final 901 <= velocidade_final 100.
Proof. vm_compute. repeat split; try discriminate. intros H. apply H. reflexivity. Qed.

(** C7, amended: for every [y] in 0..1023 the speed byte is in 0..255 and equals the
    clamped integer formulas of the specification; it is 255 on the neutral
    band 200..800, so at 500, and 0 at both ends 1023 and 0; and it does not
    increase as [y] moves further from the centre, upwards or downwards. *)
Theorem velocidade_final_profile (y : Z) :
  0 <= y <= 1023 ->
  0 <= velocidade_final y <= 255 /\
  velocidade_final y = computeSpeed y /\
  (200 <= y <= 800 -> velocidade_final y = 255) /\
  (forall y', 500 <= y -> y <= y' <= 1023 ->
              velocidade_final y' <= velocidade_final y) /\
  (forall y', y <= 500 -> 0 <= y' <= y ->
              velocidade_final y' <= velocidade_final y) /\
  velocidade_final 500 = 255 /\
  velocidade_final 1023 = 0 /\
  velocidade_final 0 = 0.
Proof.
  intros Hy. split; [apply velocidade_final_byte, Hy|].
  split; [apply velocidade_final_computeSpeed, Hy|].
  split; [apply velocidade_final_neutral|].
  split; [intros y' Hc Hy'; apply velocidade_final_up; lia|].
  split; [intros y' Hc Hy'; apply velocidade_final_down; lia|].
  repeat split.
Qed.

Lemma velocidade_final_profile_witness :
  0 <= velocidade_final 900 <= 255 /\
  velocidade_final 900 = computeSpeed 900 /\
  velocidade_final 1000 <= velocidade_final 900.
Proof.
  destruct (velocidade_final_profile 900) as (Hb & He & _ & Hup & _);
    [lia|].
  split; [exact Hb|]. split; [exact He|]. apply Hup; lia.
Defined.

(** *** Buttons *)

(** Bit [n] of [~PIND & 0x0F]: button [n], for [n] below 4. *)
Lemma button_mask_bits (pind n : Z) :
  0 <= n ->
  Z.testbit (Z.land (Z.lnot pind) 0x0F) n = (n <? 4) && pressed pind n.
Proof.
  intros Hn. rewrite Z.land_spec, Z.lnot_spec by exact Hn.
  change 0x0F with (Z.ones 4).
  rewrite Z.testbit_ones_nonneg by lia.
  unfold pressed. apply andb_comm.
Qed.

Lemma single_button_mask (pind k : Z) :
  0 <= k <= 3 -> pressed pind k = true ->
  (forall j, 0 <= j <= 3 -> j <> k -> pressed pind j = false) ->
  Z.land (Z.lnot pind) 0x0F = 2 ^ k.
Proof.
  intros Hk Hp Hothers. apply Z.bits_inj'. intros n Hn.
  rewrite button_mask_bits by exact Hn.
  rewrite Z.pow2_bits_eqb by lia.
  destruct (Z.eqb_spec k n) as [<- | Hne].
  - rewrite Hp. destruct (Z.ltb_spec k 4); [reflexivity | lia].
  - destruct (Z.ltb_spec n 4) as [Hlt | _]; [|reflexivity].
    rewrite Hothers by lia. reflexivity.
Qed.

Lemma no_button_mask (pind : Z) :
  (forall j, 0 <= j <= 3 -> pressed pind j = false) ->
  Z.land (Z.lnot pind) 0x0F = 0.
Proof.
  intros Hnone. apply Z.bits_inj'. intros n Hn.
  rewrite button_mask_bits by exact Hn. rewrite Z.bits_0.
  destruct (Z.ltb_spec n 4) as [Hlt | _]; [|reflexivity].
  rewrite Hnone by lia. reflexivity.
Qed.

(** C9, as the claim states it, does not hold: with two buttons held and the
    stick centred, the packet carries the joystick command STOP, which is
    none of the four utility commands. *)
Lemma two_buttons_counterexample :
  let sent := loop_iteration 0xFC 500 500 (0, 0) in
  pressed 0xFC 0 = true /\ pressed 0xFC 1 = true /\
  fst sent = get_cmd 500 500 /\ fst sent = wire_code STOP /\
  ~ In (fst sent)
      (map wire_code [RESET_LIVES; TOGGLE_A; TOGGLE_B; TOGGLE_C]).
Proof.
  vm_compute. repeat split. intros [H | [H | [H | [H | []]]]]; discriminate.
Qed.

(** C9, amended: in every pass in which exactly one of the 4 buttons is
    active (its bit of [PIND] low), the packet carries that button's utility
    command (RESET_LIVES, TOGGLE_A, TOGGLE_B, TOGGLE_C for buttons 0 to 3)
    with the speed byte of that pass, whatever the joystick and the previous
    packet; a following pass with no button active carries the joystick
    command again. *)
Theorem single_button_overrides
  (pind x y k : Z) (data_packet : packet) :
  0 <= k <= 3 ->
  pressed pind k = true ->
  (forall j, 0 <= j <= 3 -> j <> k -> pressed pind j = false) ->
  loop_iteration pind x y data_packet = (utility_code k, velocidade_final y) /\
  (forall pind' x' y',
     (forall j, 0 <= j <= 3 -> pressed pind' j = false) ->
     transmit [(pind, x, y); (pind', x', y')] data_packet
       = [(utility_code k, velocidade_final y);
          (get_cmd x' y', velocidade_final y')]).
Proof.
  intros Hk Hp Hothers.
  assert (E : loop_iteration pind x y data_packet
              = (utility_code k, velocidade_final y)).
  { unfold loop_iteration.
    rewrite (single_button_mask pind k Hk Hp Hothers).
    assert (Hc : k = 0 \/ k = 1 \/ k = 2 \/ k = 3) by lia.
    destruct Hc as [-> | [-> | [-> | ->]]]; reflexivity. }
  split; [exact E|].
  intros pind' x' y' Hnone. cbn [transmit]. rewrite E. f_equal.
  unfold loop_iteration. rewrite (no_button_mask pind' Hnone). reflexivity.
Qed.

Lemma single_button_overrides_witness :
  pressed 0xFD 1 = true /\
  loop_iteration 0xFD 1023 1023 (0, 0)
    = (wire_code TOGGLE_A, velocidade_final 1023).
Proof.
  assert (Hp : pressed 0xFD 1 = true) by reflexivity.
  split; [exact Hp|].
  apply (single_button_overrides 0xFD 1023 1023 1 (0, 0)); [lia | exact Hp |].
  intros j Hj Hne.
  assert (Hc : j = 0 \/ j = 2 \/ j = 3) by lia.
  destruct Hc as [-> | [-> | ->]]; reflexivity.
Defined.

(** * Further properties of the receiver *)

(** ** Bits of a register after a write *)

Lemma toggle_other (p mask n : Z) :
  0 <= n < 8 -> Z.testbit mask n = false ->
  Z.testbit (u8 (Z.lxor p mask)) n = Z.testbit p n.
Proof.
  intros Hn Hm. rewrite u8_testbit by exact Hn.
  rewrite Z.lxor_spec, Hm. apply xorb_false_r.
Qed.

Lemma toggle_same (p mask n : Z) :
  0 <= n < 8 -> Z.testbit mask n = true ->
  Z.testbit (u8 (Z.lxor p mask)) n = negb (Z.testbit p n).
Proof.
  intros Hn Hm. rewrite u8_testbit by exact Hn.
  rewrite Z.lxor_spec, Hm. apply xorb_true_r.
Qed.

Lemma set_other (p mask n : Z) :
  0 <= n < 8 -> Z.testbit mask n = false ->
  Z.testbit (u8 (Z.lor p mask)) n = Z.testbit p n.
Proof.
  intros Hn Hm. rewrite u8_testbit by exact Hn.
  rewrite Z.lor_spec, Hm. apply orb_false_r.
Qed.

Lemma set_same (p mask n : Z) :
  0 <= n < 8 -> Z.testbit mask n = true ->
  Z.testbit (u8 (Z.lor p mask)) n = true.
Proof.
  intros Hn Hm. rewrite u8_testbit by exact Hn.
  rewrite Z.lor_spec, Hm. apply orb_true_r.
Qed.

Lemma clear_other (p mask n : Z) :
  0 <= n < 8 -> Z.testbit mask n = false ->
  Z.testbit (u8 (Z.land p (Z.lnot mask))) n = Z.testbit p n.
Proof.
  intros Hn Hm. rewrite u8_testbit by exact Hn.
  rewrite Z.land_spec, Z.lnot_spec, Hm by lia. apply andb_true_r.
Qed.

Lemma clear_same (p mask n : Z) :
  0 <= n < 8 -> Z.testbit mask n = true ->
  Z.testbit (u8 (Z.land p (Z.lnot mask))) n = false.
Proof.
  intros Hn Hm. rewrite u8_testbit by exact Hn.
  rewrite Z.land_spec, Z.lnot_spec, Hm by lia. apply andb_false_r.
Qed.

(** A byte toggled twice with the same mask is the byte again. *)
Lemma toggle_twice (p mask : Z) :
  0 <= p <= 255 -> u8 (Z.lxor (u8 (Z.lxor p mask)) mask) = p.
Proof.
  intros Hp. apply Z.bits_inj'. intros n Hn.
  destruct (Z_lt_le_dec n 8) as [Hlt | Hge].
  - rewrite u8_testbit, Z.lxor_spec, u8_testbit, Z.lxor_spec by lia.
    rewrite xorb_assoc, xorb_nilpotent. apply xorb_false_r.
  - rewrite <- (u8_small p Hp) at 2. unfold u8. change 256 with (2 ^ 8).
    rewrite !Z.mod_pow2_bits_high by lia. reflexivity.
Qed.

(** Side conditions on bit numbers and masks are closed and computed. *)
Ltac bit_side := first [reflexivity | split; [discriminate | reflexivity]].

Ltac bits :=
  repeat first
    [ rewrite toggle_other by bit_side
    | rewrite toggle_same by bit_side
    | rewrite set_other by bit_side
    | rewrite set_same by bit_side
    | rewrite clear_other by bit_side
    | rewrite clear_same by bit_side ].

(** Case analysis on a command byte along the [case] labels of [dispatch]:
    [tac] is run once for the bytes no label matches and once per label. *)
Ltac by_command cmd tac :=
  let p := fresh "p" in
  destruct cmd as [|p|p]; [tac | | tac];
  do 8 (try (destruct p as [p|p|]; try tac)).

(** ** Commands the switch does not know *)



(** ** Duty after a command *)

(** X2: the compare values a command leaves do not build up: the same
    packet dispatched twice leaves the duty of the first dispatch, for every
    command byte; and for STOP, FORWARD, LEFT, RIGHT and the four diagonals
    the duty depends on the packet alone, not on the machine it reaches. *)
Theorem duty_does_not_accumulate
  (cmd s : Z) (c : Command) (m m' : machine) :
  duty (dispatch cmd s (dispatch cmd s m)) = duty (dispatch cmd s m) /\
  (In c motion_commands ->
   duty (dispatch (wire_code c) s m) = duty (dispatch (wire_code c) s m')).
Proof.
  split.
  - destruct m as [r tr mp cp le er vi q l].
    unfold dispatch. by_command cmd ltac:(reflexivity).
    all: cbv beta iota zeta; cbn [vidas estado_rele].
    all: try (destruct (vi =? 0) eqn:Hv).
    all: try (destruct (er =? 0) eqn:He).
    all: regs; rewrite ?Hv, ?He; rewrite ?u8_idem; reflexivity.
  - intros Hc. simpl in Hc.
    repeat (destruct Hc as [<- | Hc]; [reflexivity|]). contradiction.
Qed.

Lemma duty_does_not_accumulate_witness :
  duty (dispatch (wire_code LEFT) 180 boot)
    = duty (dispatch (wire_code LEFT) 180
              (dispatch (wire_code FORWARD) 200 boot)).
Proof.
  destruct (duty_does_not_accumulate 0 180 LEFT boot
              (dispatch (wire_code FORWARD) 200 boot)) as (_ & H).
  apply H. simpl. auto.
Defined.

(** X3: STOP leaves both wheels at 0, clears both direction outputs and
    clears the forward flag; LEFT and RIGHT leave the commanded side at 0 and
    the other side at the speed byte, and touch neither the direction
    outputs nor the forward flag. *)
Theorem stop_and_pivots (s : Z) (m : machine) :
  0 <= s <= 255 ->
  (let m' := dispatch (wire_code STOP) s m in
   duty m' = (0, 0) /\ estado_rele m' = 0 /\
   Z.testbit (io m' PORTD) PD0 = false /\
   Z.testbit (io m' PORTD) PD1 = false) /\
  (let m' := dispatch (wire_code LEFT) s m in
   duty m' = (0, s) /\ estado_rele m' = estado_rele m /\
   io m' PORTD = io m PORTD) /\
  (let m' := dispatch (wire_code RIGHT) s m in
   duty m' = (s, 0) /\ estado_rele m' = estado_rele m /\
   io m' PORTD = io m PORTD).
Proof.
  intros Hs. cbv [wire_code dispatch]. regs.
  rewrite !(u8_small s) by lia.
  repeat split; bits; reflexivity.
Qed.

Lemma stop_and_pivots_witness :
  duty (dispatch (wire_code LEFT) 180
          (dispatch (wire_code FORWARD) 200 boot)) = (0, 180).
Proof.
  destruct (stop_and_pivots 180 (dispatch (wire_code FORWARD) 200 boot))
    as (_ & (H & _) & _); [lia | exact H].
Defined.

(** ** The forward flag *)

Lemma dispatch_keeps_forward_flag (cmd v : Z) (m : machine) :
  cmd <> wire_code STOP -> estado_rele m = 1 ->
  estado_rele (dispatch cmd v m) = 1.
Proof.
  intros Hc He. unfold dispatch.
  by_command cmd ltac:(exact He).
  all: cbv beta iota zeta.
  all: try (destruct (vidas m =? 0)).
  all: try (destruct (estado_rele m =? 0)).
  all: first [exact He | reflexivity | exfalso; apply Hc; reflexivity].
Qed.

Lemma dispatch_all_keeps_forward_flag (ps : list packet) (m : machine) :
  Forall (fun p : packet => fst p <> wire_code STOP) ps ->
  estado_rele m = 1 -> estado_rele (dispatch_all ps m) = 1.
Proof.
  revert m. induction ps as [|p ps IH]; intros m Hps He; [exact He|].
  inversion Hps as [|? ? Hp Hrest]; subst. simpl.
  apply IH; [exact Hrest|].
  apply dispatch_keeps_forward_flag; assumption.
Qed.

Lemma dispatch_reverse_free (s : Z) (m : machine) :
  0 <= s <= 255 -> estado_rele m = 0 ->
  let m' := dispatch (wire_code REVERSE) s m in
  duty m' = (255 - s, 255 - s) /\
  Z.testbit (io m' PORTD) PD0 = false /\
  Z.testbit (io m' PORTD) PD1 = false /\
  estado_rele m' = 0.
Proof.
  intros Hs He. cbv [wire_code dispatch]. rewrite He.
  change (0 =? 0) with true. regs.
  rewrite !(u8_small (255 - s)) by lia.
  repeat split; bits; try reflexivity. exact He.
Qed.

(** X4: once FORWARD has been dispatched, REVERSE does nothing, whatever
    other commands come in between, until a STOP is dispatched; after the
    STOP, REVERSE with speed byte [s'] clears both direction outputs and
    leaves both wheels at [255 - s']. *)
Theorem reverse_locked_until_stop
  (m : machine) (s s' s'' : Z) (ps : list packet) :
  Forall (fun p : packet => fst p <> wire_code STOP) ps ->
  0 <= s' <= 255 ->
  let m1 := dispatch_all ps (dispatch (wire_code FORWARD) s m) in
  let m2 := dispatch (wire_code REVERSE) s' (dispatch (wire_code STOP) s'' m1) in
  dispatch (wire_code REVERSE) s' m1 = m1 /\
  duty m2 = (255 - s', 255 - s') /\
  Z.testbit (io m2 PORTD) PD0 = false /\
  Z.testbit (io m2 PORTD) PD1 = false /\
  estado_rele m2 = 0.
Proof.
  intros Hps Hs. cbv zeta.
  assert (He : estado_rele
                 (dispatch_all ps (dispatch (wire_code FORWARD) s m)) = 1)
    by (apply dispatch_all_keeps_forward_flag; [exact Hps | reflexivity]).
  set (m1 := dispatch_all ps (dispatch (wire_code FORWARD) s m)) in *.
  split.
  - cbv [wire_code dispatch]. rewrite He. reflexivity.
  - apply dispatch_reverse_free; [exact Hs | reflexivity].
Qed.

Lemma reverse_locked_until_stop_witness :
  let m1 := dispatch_all [(wire_code LEFT, 255); (wire_code TOGGLE_A, 255)]
              (dispatch (wire_code FORWARD) 100 boot) in
  dispatch (wire_code REVERSE) 50 m1 = m1 /\
  duty (dispatch (wire_code REVERSE) 50 (dispatch (wire_code STOP) 255 m1))
    = (255 - 50, 255 - 50).
Proof.
  intros m1.
  assert (Hps : Forall (fun p : packet => fst p <> wire_code STOP)
                  [(wire_code LEFT, 255); (wire_code TOGGLE_A, 255)])
    by (repeat constructor; discriminate).
  pose proof (reverse_locked_until_stop boot 100 50 255 _ Hps) as H.
  cbv zeta in H. destruct H as (H1 & H2 & _); [lia|].
  split; [exact H1 | exact H2].
Defined.

(** ** Indicator toggles *)

(** X5: TOGGLE_A, TOGGLE_B and TOGGLE_C each change one output bit and
    nothing else, the wheels included; on a machine whose registers hold
    bytes, the same toggle dispatched twice gives the machine back. *)
Theorem toggle_twice_restores (c : Command) (s s' : Z) (m : machine) :
  In c [TOGGLE_A; TOGGLE_B; TOGGLE_C] ->
  (forall r, 0 <= io m r <= 255) ->
  same_state (dispatch (wire_code c) s' (dispatch (wire_code c) s m)) m /\
  duty (dispatch (wire_code c) s m) = duty m /\
  estado_rele (dispatch (wire_code c) s m) = estado_rele m /\
  vidas (dispatch (wire_code c) s m) = vidas m.
Proof.
  intros Hc Hb. simpl in Hc.
  destruct Hc as [<- | [<- | [<- | []]]];
    (split; [|repeat split]);
    unfold same_state; (split; [|repeat split]);
    intros r; destruct r; cbv [wire_code dispatch]; regs;
    try reflexivity; apply toggle_twice, Hb.
Qed.

Lemma toggle_twice_restores_witness :
  same_state
    (dispatch (wire_code TOGGLE_B) 7 (dispatch (wire_code TOGGLE_B) 255 boot))
    boot.
Proof.
  assert (Hb : forall r, 0 <= io boot r <= 255)
    by (intros []; vm_compute; split; discriminate).
  destruct (toggle_twice_restores TOGGLE_B 255 7 boot) as (H & _);
    [simpl; auto | exact Hb | exact H].
Defined.

(** ** What every run from [boot] keeps *)

Lemma dispatch_laser (cmd v : Z) (m : machine) :
  laser (dispatch cmd v m) = laser m.
Proof.
  destruct m as [r tr mp cp le er vi q l].
  unfold dispatch. by_command cmd ltac:(reflexivity).
  all: cbv beta iota zeta; cbn [vidas estado_rele].
  all: try (destruct (vi =? 0)).
  all: try (destruct (er =? 0)).
  all: regs; bits; reflexivity.
Qed.

Lemma dispatch_indicators (cmd v : Z) (m : machine) :
  Z.testbit (io m PORTC) PC3 = (vidas m =? 3) ->
  Z.testbit (io m PORTD) PD2 = (1 <=? vidas m) ->
  let m' := dispatch cmd v m in
  Z.testbit (io m' PORTC) PC3 = (vidas m' =? 3) /\
  Z.testbit (io m' PORTD) PD2 = (1 <=? vidas m').
Proof.
  destruct m as [r tr mp cp le er vi q l]. cbn [io vidas]. intros H3 H2.
  unfold dispatch. by_command cmd ltac:(split; assumption).
  all: cbv beta iota zeta; cbn [vidas estado_rele].
  all: try (destruct (Z.eqb_spec vi 0) as [-> | Hv]).
  all: try (destruct (er =? 0)).
  all: regs; bits; rewrite ?H3, ?H2; split; reflexivity.
Qed.

Lemma consistent_boot : consistent boot.
Proof.
  unfold consistent. repeat split; try discriminate.
  left. split; reflexivity.
Qed.

Lemma dispatch_consistent (cmd v : Z) (m : machine) :
  pc m = LoopHead -> consistent m -> consistent (dispatch cmd v m).
Proof.
  intros Hpc (Hv & Hp & _ & H3 & H2).
  destruct (dispatch_frame cmd v m) as (Fl & Fp & Fc & _ & Fpc & _ & Fv).
  destruct (dispatch_indicators cmd v m H3 H2) as (I3 & I2).
  pose proof (dispatch_laser cmd v m) as Fla.
  unfold consistent. rewrite Fl, Fp, Fc, Fpc, Fla.
  split; [destruct Fv as [-> | (_ & _ & ->)]; lia|].
  split; [exact Hp|].
  split; [intros Hb; rewrite Hpc in Hb; discriminate|].
  split; assumption.
Qed.

Lemma poll_radio_consistent (m : machine) :
  pc m = LoopHead -> consistent m -> consistent (poll_radio m).
Proof.
  intros Hpc Hm. destruct (rx m) as [|[cmd v] q] eqn:Hq.
  - rewrite (poll_radio_nil m Hq). exact Hm.
  - rewrite (poll_radio_cons m cmd v q Hq).
    apply dispatch_consistent; [exact Hpc | exact Hm].
Qed.

Lemma ldr_cascade_consistent (v : Z) (m : machine) :
  pc m = LoopHead -> modo_penalidade m = 0 ->
  consistent m -> consistent (ldr_cascade v m).
Proof.
  destruct m as [r tr mp cp le er vi q l].
  unfold consistent, laser, duty. cbn [io vidas modo_penalidade
    contador_penalidade ldr_estado pc].
  intros -> -> (Hv & Hp & _ & H3 & H2).
  destruct Hp as [(_ & ->) | (Hp & _)]; [|discriminate].
  unfold ldr_cascade. cbn [vidas ldr_estado].
  destruct (v <? 30); cbn [andb];
    [destruct (le =? 0); rewrite ?andb_false_r, ?andb_true_r;
     [destruct (Z.eqb_spec vi 3) as [-> | N3];
      [|destruct (Z.eqb_spec vi 2) as [-> | N2];
        [|destruct (Z.eqb_spec vi 1) as [-> | N1]]]|]|].
  all: try (destruct (v >? 30)).
  all: regs; bits; rewrite ?H3, ?H2.
  all: repeat split; try lia; try discriminate; try reflexivity; auto.
Qed.

(** The interrupt writes bit [PC1] of [PORTC] and no other output. *)
Lemma ISR_ports (m : machine) :
  Z.testbit (io (ISR m) PORTC) PC3 = Z.testbit (io m PORTC) PC3 /\
  io (ISR m) PORTD = io m PORTD.
Proof.
  destruct m as [r tr mp cp le er vi q l]. unfold ISR.
  cbn [modo_penalidade contador_penalidade set_contador_penalidade].
  destruct (mp =? 1);
    [destruct (u8 (cp + 1) >=? 5)|];
    cbn [modo_penalidade set_modo_penalidade set_contador_penalidade
         with_io];
    try change (0 =? 0) with true; try destruct (mp =? 0);
    cbv beta iota; regs; bits; split; reflexivity.
Qed.

Lemma ISR_consistent (m : machine) : consistent m -> consistent (ISR m).
Proof.
  intros (Hv & Hp & Hb & H3 & H2).
  destruct (ISR_frame m) as (Fv & Fl & _ & _ & Fpc & Fd).
  destruct (ISR_ports m) as (P3 & P2).
  unfold consistent. rewrite Fv, Fl, Fpc, Fd, P3, P2.
  split; [exact Hv|]. split; [|split; [exact Hb | split; assumption]].
  destruct Hp as [(H0 & Hc) | (H1 & Hc & Hoff & Hld & Hpc)].
  - destruct (ISR_normal m H0) as (J0 & _ & Jc). left. split; congruence.
  - destruct (Z.eq_dec (contador_penalidade m) 4) as [H4 | H4].
    + destruct (ISR_fifth m H1 H4) as (J0 & Jc & _). left. split; assumption.
    + destruct (ISR_penalized m H1) as (J1 & Jc & Joff); [lia|].
      right. repeat split; try assumption; lia.
Qed.

Lemma main_step_consistent (v : Z) (m : machine) :
  consistent m -> consistent (main_step v m).
Proof.
  intros Hm. unfold main_step. destruct (pc m) eqn:Hpc.
  - unfold Receptor.loop_iteration.
    destruct (Z.eqb_spec (modo_penalidade m) 1) as [Hp | Hp].
    + destruct Hm as (Hv & Hq & _ & H3 & H2).
      unfold consistent.
      split; [exact Hv|]. split; [exact Hq|].
      split; [intros Hb; change (pc m = BusyWait) in Hb; congruence|].
      split; assumption.
    + assert (H0 : modo_penalidade m = 0)
        by (destruct Hm as (_ & [(H0 & _) | (H1 & _)] & _); congruence).
      destruct (poll_radio_frame m) as (_ & Fp & _ & _ & Fpc & _).
      apply ldr_cascade_consistent; [congruence | congruence |].
      apply poll_radio_consistent; assumption.
  - destruct (tempo_rotacao m =? 0); [exact Hm|].
    destruct Hm as (Hv & Hq & Hb & H3 & H2).
    destruct (Hb Hpc) as (_ & Hld).
    destruct m as [r tr mp cp le er vi q l].
    unfold consistent, laser, duty in *. cbn [io vidas modo_penalidade
      contador_penalidade ldr_estado pc] in *.
    regs. bits. repeat split; auto; try discriminate; try lia.
    right. repeat split; auto; lia.
Qed.

Lemma step_consistent (m : machine) (e : event) :
  consistent m -> consistent (step m e).
Proof.
  destruct e as [|p|v]; simpl.
  - apply ISR_consistent.
  - intros H. exact H.
  - apply main_step_consistent.
Qed.

Lemma run_from_consistent (evs : list event) (m : machine) :
  consistent m -> consistent (run evs m).
Proof.
  revert m. induction evs as [|e evs IH]; intros m Hm; [exact Hm|].
  simpl. apply IH, step_consistent, Hm.
Qed.

Lemma run_consistent (evs : list event) : consistent (run evs boot).
Proof. apply run_from_consistent, consistent_boot. Qed.

(** X6: at every point of every run from [boot], whatever packets arrive
    and whatever the sensor reads, the lives are 0, 1, 2 or 3: they are never
    taken below 0 and never wrap. *)
Theorem lives_stay_in_range (evs : list event) :
  0 <= vidas (run evs boot) <= 3.
Proof. apply (run_consistent evs). Qed.

(** X7: at every point of every run from [boot] the penalty flag is 0 or 1;
    outside a penalty the tick counter is 0; in a penalty it is at most 4,
    the laser is off, the hit latch is set and the program is not inside the
    busy wait. *)
Theorem penalty_state_well_formed (evs : list event) :
  let m := run evs boot in
  (modo_penalidade m = 0 /\ contador_penalidade m = 0) \/
  (modo_penalidade m = 1 /\ 0 <= contador_penalidade m <= 4 /\
   laser m = false /\ ldr_estado m = 1 /\ pc m = LoopHead).
Proof. apply (run_consistent evs). Qed.

(** X8: at every point of every run from [boot] the life indicator on
    [PC3] is lit exactly when 3 lives are left and the one on [PD2] exactly
    when at least one life is left. *)
Theorem life_indicators_follow_lives (evs : list event) :
  let m := run evs boot in
  Z.testbit (io m PORTC) PC3 = (vidas m =? 3) /\
  Z.testbit (io m PORTD) PD2 = (1 <=? vidas m).
Proof. apply (run_consistent evs). Qed.

(** X9: whenever a run from [boot] stands in the busy wait of [vida], the
    machine is not penalized, both wheels are at full duty and the latch is
    set; the next tick followed by the next step of the main program ends
    the wait and starts the penalty with the counter at 0 and the laser
    off. *)
Theorem hit_pulse_ends_at_next_tick (evs : list event) (v : Z) :
  pc (run evs boot) = BusyWait ->
  let m := run evs boot in
  let m' := run [Tick; Main v] m in
  (modo_penalidade m = 0 /\ duty m = (255, 255) /\ ldr_estado m = 1) /\
  (penalized m' /\ contador_penalidade m' = 0 /\ pc m' = LoopHead /\
   laser m' = false /\ vidas m' = vidas m).
Proof.
  intros Hpc. cbv zeta.
  destruct (run_consistent evs) as (_ & Hp & Hb & _).
  set (m := run evs boot) in *.
  destruct (Hb Hpc) as (Hd & Hl).
  assert (H0 : modo_penalidade m = 0)
    by (destruct Hp as [(H0 & _) | (_ & _ & _ & _ & Hh)]; congruence).
  split; [auto|].
  destruct (ISR_normal m H0) as (_ & It & _).
  destruct (ISR_frame m) as (Fv & _ & _ & _ & Fpc & _).
  change (run [Tick; Main v] m) with (main_step v (ISR m)).
  unfold main_step. rewrite Fpc, Hpc, It. change (1 =? 0) with false.
  cbv beta iota. unfold penalized.
  split; [reflexivity|]. split; [reflexivity|]. split; [reflexivity|].
  split; [unfold laser; regs; apply laser_cleared | exact Fv].
Qed.

Lemma hit_pulse_ends_at_next_tick_witness :
  let m := run [Main 10; Arrive (wire_code STOP, 255); Main 500] boot in
  pc m = BusyWait /\ duty m = (255, 255) /\ penalized (run [Tick; Main 7] m).
Proof.
  intros m.
  assert (Hpc : pc m = BusyWait) by (vm_compute; reflexivity).
  pose proof (hit_pulse_ends_at_next_tick
                [Main 10; Arrive (wire_code STOP, 255); Main 500] 7 Hpc) as H.
  cbv zeta in H. destruct H as ((_ & Hd & _) & (Hp & _)).
  split; [exact Hpc|]. split; [exact Hd | exact Hp].
Defined.

(** ** The laser outside a penalty *)

Lemma ldr_cascade_frame (v : Z) (m : machine) :
  laser (ldr_cascade v m) = laser m /\ rx (ldr_cascade v m) = rx m.
Proof.
  destruct m as [r tr mp cp le er vi q l]. unfold ldr_cascade.
  repeat match goal with
         | |- context [if ?b then _ else _] => destruct b
         end; unfold laser; regs; bits; split; reflexivity.
Qed.

Lemma ISR_blinks (m : machine) :
  modo_penalidade m = 0 -> laser (ISR m) = negb (laser m).
Proof.
  destruct m as [r tr mp cp le er vi q l]. cbn [modo_penalidade].
  intros ->. unfold ISR. cbn [modo_penalidade].
  change (0 =? 1) with false. cbv beta iota. cbn [modo_penalidade].
  change (0 =? 0) with true. cbv beta iota.
  unfold laser. regs. bits. reflexivity.
Qed.

(** X10: outside a penalty [n] ticks taken in a row invert the laser output
    exactly when [n] is odd and leave the machine outside the penalty.  A
    step of the main program from the head of the loop (a whole iteration
    that takes no hit, or the part of a hit iteration up to the busy wait of
    [vida]) leaves the laser output as it is, whatever packet it dispatches;
    the rest of a hit iteration, the return of [vida] from the busy wait,
    switches the laser off. *)
Theorem laser_blinks_outside_penalty (m : machine) (n : nat) (v : Z) :
  modo_penalidade m = 0 ->
  laser (run (repeat Tick n) m) = xorb (Nat.odd n) (laser m) /\
  modo_penalidade (run (repeat Tick n) m) = 0 /\
  (pc m = LoopHead -> laser (main_step v m) = laser m) /\
  (pc m = BusyWait -> tempo_rotacao m <> 0 ->
   laser (main_step v m) = false /\ pc (main_step v m) = LoopHead).
Proof.
  intros H0. split; [|split; [|split]].
  - revert m H0. induction n as [|n IH]; intros m H0; [reflexivity|].
    cbn [repeat]. change (run (Tick :: repeat Tick n) m)
      with (run (repeat Tick n) (ISR m)).
    destruct (ISR_normal m H0) as (J0 & _).
    rewrite (IH (ISR m) J0), (ISR_blinks m H0), Nat.odd_succ.
    rewrite <- Nat.negb_odd. destruct (Nat.odd n), (laser m); reflexivity.
  - revert m H0. induction n as [|n IH]; intros m H0; [exact H0|].
    cbn [repeat]. change (run (Tick :: repeat Tick n) m)
      with (run (repeat Tick n) (ISR m)).
    apply IH. apply (ISR_normal m H0).
  - intros Hpc. rewrite main_step_normal by (auto; lia).
    destruct (ldr_cascade_frame v (poll_radio m)) as (-> & _).
    destruct (rx m) as [|[cmd s] q] eqn:Hq.
    + rewrite (poll_radio_nil m Hq). reflexivity.
    + rewrite (poll_radio_cons m cmd s q Hq), dispatch_laser. reflexivity.
  - intros Hpc Ht. unfold main_step. rewrite Hpc.
    destruct (Z.eqb_spec (tempo_rotacao m) 0) as [?|_]; [contradiction|].
    split; [|reflexivity]. unfold laser. regs. apply laser_cleared.
Qed.

Lemma laser_blinks_outside_penalty_witness :
  let m := run [Tick; Main 10; Tick] boot in
  laser (run (repeat Tick 3) boot) = xorb (Nat.odd 3) (laser boot) /\
  laser (main_step 10 boot) = laser boot /\
  laser (main_step 500 m) = false.
Proof.
  intros m.
  destruct (laser_blinks_outside_penalty boot 3 10 eq_refl)
    as (H1 & _ & H2 & _).
  assert (H0 : modo_penalidade m = 0) by (vm_compute; reflexivity).
  assert (Hpc : pc m = BusyWait) by (vm_compute; reflexivity).
  assert (Ht : tempo_rotacao m <> 0) by (vm_compute; discriminate).
  destruct (laser_blinks_outside_penalty m 0 500 H0) as (_ & _ & _ & H3).
  split; [exact H1|]. split; [apply H2; reflexivity|].
  apply H3; [exact Hpc | exact Ht].
Defined.

(** ** Packets and the penalty *)

Lemma run_cons (e : event) (evs : list event) (m : machine) :
  run (e :: evs) m = run evs (step m e).
Proof. reflexivity. Qed.

Lemma arrivals_app (a b : list event) :
  arrivals (a ++ b) = arrivals a ++ arrivals b.
Proof. unfold arrivals. apply flat_map_app. Qed.

(** Through a penalty that began with the counter at 0, whatever iterations
    of the main loop run, the radio holds what it held and what arrived. *)
Lemma penalty_window_rx (m : machine) (evs : list event) :
  modo_penalidade m = 1 -> contador_penalidade m = 0 ->
  pc m = LoopHead -> laser m = false ->
  (ticks evs < 5)%nat ->
  rx (run evs m) = rx m ++ arrivals evs.
Proof.
  intros Hp Hc Hl Hoff. induction evs as [|e evs IH] using rev_ind.
  - intros _. simpl. symmetry. apply app_nil_r.
  - rewrite ticks_app, run_app, arrivals_app. intros Hn.
    assert (Hn' : (ticks evs < 5)%nat) by lia.
    destruct (penalty_window m evs Hp Hc Hl Hoff Hn') as (Ip & _ & Il & _).
    specialize (IH Hn'). set (m' := run evs m) in *.
    destruct e as [|p|v]; cbn [run fold_left step arrivals flat_map app].
    + destruct (ISR_frame m') as (_ & _ & _ & Frx & _).
      rewrite Frx, IH, app_nil_r. reflexivity.
    + cbn [rx set_rx]. rewrite IH, app_assoc. reflexivity.
    + rewrite (main_step_penalized v m' Ip Il).
      change (rx (with_io motor_desligado m')) with (rx m').
      rewrite IH, app_nil_r. reflexivity.
Qed.

(** X12: a packet that reaches an empty radio at any point of a penalty is
    not lost, whatever iterations of the main loop and ticks come before
    and after it in the penalty: after the fifth tick it is the pending
    packet, and the first iteration after the penalty dispatches it; a
    FORWARD received in this way sets both wheels to [255 - s] when that
    iteration reads 30 or more. *)
Theorem late_packet_runs_after_penalty
  (m0 : machine) (w : list event) (cmd s v : Z) :
  rx m0 = [] -> ticks w = 4%nat -> arrivals w = [(cmd, s)] ->
  let m := vida_fim m0 in
  let m' := run (w ++ [Tick]) m in
  (penalized m /\ penalized (run w m) /\
   modo_penalidade m' = 0 /\ rx m' = [(cmd, s)]) /\
  main_step v m' = ldr_cascade v (dispatch cmd s (set_rx [] m')) /\
  (cmd = wire_code FORWARD -> 0 <= s <= 255 -> 30 <= v ->
   duty (main_step v m') = (255 - s, 255 - s)).
Proof.
  intros Hq H4 Ha. cbv zeta. rewrite run_app.
  assert (Hoff : laser (vida_fim m0) = false)
    by (unfold laser; regs; apply laser_cleared).
  assert (Hn : (ticks w < 5)%nat) by lia.
  destruct (penalty_window (vida_fim m0) w eq_refl eq_refl eq_refl Hoff Hn)
    as (Ip & Ic & Il & _).
  pose proof (penalty_window_rx (vida_fim m0) w eq_refl eq_refl eq_refl
                Hoff Hn) as Hrx.
  change (rx (vida_fim m0)) with (rx m0) in Hrx. rewrite Hq, Ha in Hrx.
  cbn [app] in Hrx.
  set (mw := run w (vida_fim m0)) in *.
  change (run [Tick] mw) with (ISR mw).
  destruct (ISR_fifth mw Ip) as (T0 & _); [rewrite Ic, H4; reflexivity|].
  destruct (ISR_frame mw) as (_ & _ & _ & Frx & Fpc & _).
  set (m' := ISR mw) in *.
  assert (Hrx' : rx m' = [(cmd, s)]) by congruence.
  assert (Tpc : pc m' = LoopHead) by congruence.
  assert (Hn' : modo_penalidade m' <> 1) by lia.
  assert (Hd : main_step v m'
               = ldr_cascade v (dispatch cmd s (set_rx [] m'))).
  { rewrite (main_step_normal v m' Tpc Hn').
    rewrite (poll_radio_cons m' cmd s [] Hrx'). reflexivity. }
  split; [unfold penalized; auto|].
  split; [exact Hd|].
  intros -> Hs Hv. rewrite Hd.
  rewrite ldr_cascade_no_hit by exact Hv.
  apply (dispatch_forward (set_rx [] m') s Hs).
Qed.

Lemma late_packet_runs_after_penalty_witness :
  let m := vida_fim (run [Main 10; Tick] boot) in
  let w := [Main 500; Tick; Main 5; Arrive (wire_code FORWARD, 55);
            Main 500; Tick; Tick; Main 7; Tick; Main 500] in
  let m' := run (w ++ [Tick]) m in
  penalized (run w m) /\ rx m' = [(wire_code FORWARD, 55)] /\
  duty (main_step 500 m') = (255 - 55, 255 - 55).
Proof.
  intros m w m'.
  assert (Hq : rx (run [Main 10; Tick] boot) = [])
    by (vm_compute; reflexivity).
  pose proof (late_packet_runs_after_penalty
                (run [Main 10; Tick] boot) w (wire_code FORWARD) 55 500
                Hq eq_refl eq_refl) as H.
  cbv zeta in H. destruct H as ((_ & Hp & _ & Hrx) & _ & H).
  split; [exact Hp|]. split; [exact Hrx|].
  apply H; [reflexivity | lia | lia].
Defined.

(** * Further properties of the transmitter *)

(** ** What a pass can send *)

Lemma get_cmd_cases (x y : Z) :
  In (get_cmd x y) (map wire_code (REVERSE :: motion_commands)).
Proof.
  unfold get_cmd.
  destruct (x <? 200); destruct (x >? 800);
    destruct (y <? 200); destruct (y >? 800); simpl; auto 12.
Qed.

Lemma get_cmd_not_utility (x y : Z) :
  ~ In (get_cmd x y)
      (map wire_code [RESET_LIVES; TOGGLE_A; TOGGLE_B; TOGGLE_C]).
Proof.
  unfold get_cmd.
  destruct (x <? 200); destruct (x >? 800);
    destruct (y <? 200); destruct (y >? 800); simpl;
    intros [H | [H | [H | [H | []]]]]; discriminate.
Qed.

Lemma get_cmd_known (x y : Z) : exists c, get_cmd x y = wire_code c.
Proof.
  pose proof (get_cmd_cases x y) as H. apply in_map_iff in H.
  destruct H as (c & Hc & _). exists c. symmetry. exact Hc.
Qed.

(** X13: whatever the two axes read, [get_cmd] returns the code of one of
    the nine movement commands; it never returns a utility code
    (RESET_LIVES, TOGGLE_A, TOGGLE_B, TOGGLE_C) and never a byte the receiver
    does not know. *)
Theorem get_cmd_only_moves (x y : Z) :
  In (get_cmd x y) (map wire_code (REVERSE :: motion_commands)) /\
  ~ In (get_cmd x y)
      (map wire_code [RESET_LIVES; TOGGLE_A; TOGGLE_B; TOGGLE_C]) /\
  exists c, get_cmd x y = wire_code c.
Proof.
  split; [apply get_cmd_cases|].
  split; [apply get_cmd_not_utility | apply get_cmd_known].
Qed.

Lemma velocidade_final_any_byte (y : Z) : 0 <= velocidade_final y <= 255.
Proof.
  assert (Hu : forall z, 0 <= u8 z <= 255)
    by (intros z; unfold u8; pose proof (Z.mod_pos_bound z 256); lia).
  unfold velocidade_final.
  destruct (y >? 800); [apply Hu|]. destruct (y <? 200); [apply Hu | lia].
Qed.

(** The five ways through the [switch] on the buttons. *)
Lemma loop_iteration_cases (pind x y : Z) (data_packet : packet) :
  let mask := Z.land (Z.lnot pind) 0x0F in
  (exists k, 0 <= k <= 3 /\ mask = 2 ^ k /\
     loop_iteration pind x y data_packet
       = (utility_code k, velocidade_final y)) \/
  ((forall k, 0 <= k <= 3 -> mask <> 2 ^ k) /\
   loop_iteration pind x y data_packet = (get_cmd x y, velocidade_final y)).
Proof.
  cbv zeta. unfold loop_iteration.
  destruct (Z.land (Z.lnot pind) 15) as [|p|p].
  - right. split; [|reflexivity].
    intros k Hk. assert (0 < 2 ^ k) by (apply Z.pow_pos_nonneg; lia). lia.
  - assert (Hother :
      Z.pos p <> 1 -> Z.pos p <> 2 -> Z.pos p <> 4 -> Z.pos p <> 8 ->
      forall k, 0 <= k <= 3 -> Z.pos p <> 2 ^ k).
    { intros H1 H2 H4 H8 k Hk.
      assert (Hc : k = 0 \/ k = 1 \/ k = 2 \/ k = 3) by lia.
      destruct Hc as [-> | [-> | [-> | ->]]]; assumption. }
    destruct p as [p|p|];
      [right; split; [apply Hother; discriminate | reflexivity]
      | | left; exists 0; repeat split; lia ].
    destruct p as [p|p|];
      [right; split; [apply Hother; discriminate | reflexivity]
      | | left; exists 1; repeat split; lia ].
    destruct p as [p|p|];
      [right; split; [apply Hother; discriminate | reflexivity]
      | | left; exists 2; repeat split; lia ].
    destruct p as [p|p|];
      [right; split; [apply Hother; discriminate | reflexivity]
      | right; split; [apply Hother; discriminate | reflexivity]
      | left; exists 3; repeat split; lia ].
  - right. split; [|reflexivity].
    intros k Hk. assert (0 < 2 ^ k) by (apply Z.pow_pos_nonneg; lia). lia.
Qed.

Lemma utility_code_known (k : Z) :
  0 <= k <= 3 ->
  In (utility_code k)
     (map wire_code [RESET_LIVES; TOGGLE_A; TOGGLE_B; TOGGLE_C]).
Proof.
  intros Hk. assert (Hc : k = 0 \/ k = 1 \/ k = 2 \/ k = 3) by lia.
  destruct Hc as [-> | [-> | [-> | ->]]]; simpl; auto.
Qed.

(** X14: whatever the buttons and the axes read and whatever the buffer
    held, the packet handed to the radio carries the wire code of one of the
    thirteen commands and a speed byte in 0..255 that is the speed computed
    from [y] in that pass. *)
Theorem sent_packet_is_known
  (pind x y : Z) (data_packet : packet) :
  let sent := loop_iteration pind x y data_packet in
  In (fst sent) (map wire_code all_commands) /\
  snd sent = velocidade_final y /\
  0 <= snd sent <= 255.
Proof.
  cbv zeta.
  destruct (loop_iteration_cases pind x y data_packet)
    as [(k & Hk & _ & ->) | (_ & ->)]; cbn [fst snd].
  - split; [|split; [reflexivity | apply velocidade_final_any_byte]].
    assert (Hc : k = 0 \/ k = 1 \/ k = 2 \/ k = 3) by lia.
    destruct Hc as [-> | [-> | [-> | ->]]]; simpl; auto.
  - split; [|split; [reflexivity | apply velocidade_final_any_byte]].
    destruct (get_cmd_known x y) as (c & ->).
    apply in_map. destruct c; simpl; auto 15.
Qed.

(** X15: the packet carries a utility command exactly when exactly one of
    the four buttons is held; with no button held it carries the joystick
    command. *)
Theorem utility_iff_one_button
  (pind x y : Z) (data_packet : packet) :
  (In (fst (loop_iteration pind x y data_packet))
      (map wire_code [RESET_LIVES; TOGGLE_A; TOGGLE_B; TOGGLE_C])
   <-> one_button pind) /\
  (no_button pind ->
   fst (loop_iteration pind x y data_packet) = get_cmd x y).
Proof.
  split; [split|].
  - intros Hin.
    destruct (loop_iteration_cases pind x y data_packet)
      as [(k & Hk & Hm & E) | (_ & E)]; rewrite E in Hin; cbn [fst] in Hin.
    + exists k. split; [exact Hk|].
      assert (Hbit : forall n, 0 <= n <= 3 ->
                (k =? n) = pressed pind n).
      { intros n Hn. rewrite <- (Z.pow2_bits_eqb k n) by lia.
        rewrite <- Hm, button_mask_bits by lia.
        destruct (Z.ltb_spec n 4); [reflexivity | lia]. }
      split.
      * rewrite <- Hbit by exact Hk. apply Z.eqb_refl.
      * intros j Hj Hne. rewrite <- Hbit by exact Hj.
        apply Z.eqb_neq. auto.
    + exfalso. apply (get_cmd_not_utility x y). exact Hin.
  - intros (k & Hk & Hp & Ho).
    unfold loop_iteration. rewrite (single_button_mask pind k Hk Hp Ho).
    assert (Hc : k = 0 \/ k = 1 \/ k = 2 \/ k = 3) by lia.
    destruct Hc as [-> | [-> | [-> | ->]]]; simpl; auto.
  - intros Hn. unfold loop_iteration, no_button in *.
    rewrite (no_button_mask pind Hn). reflexivity.
Qed.

Lemma utility_iff_one_button_witness :
  one_button 0xF7 /\
  In (fst (loop_iteration 0xF7 0 0 (0, 0)))
     (map wire_code [RESET_LIVES; TOGGLE_A; TOGGLE_B; TOGGLE_C]).
Proof.
  assert (H1 : one_button 0xF7).
  { exists 3. split; [lia|]. split; [reflexivity|].
    intros j Hj Hne. assert (Hc : j = 0 \/ j = 1 \/ j = 2) by lia.
    destruct Hc as [-> | [-> | ->]]; reflexivity. }
  split; [exact H1|].
  apply (utility_iff_one_button 0xF7 0 0 (0, 0)). exact H1.
Defined.

(** ** The speed byte and the clamp *)

(** X16: for a 10-bit reading the speed byte is 255 minus the scaled
    deflection, which is itself in 0..255, so the clamp at 0 is never taken;
    for any larger 16-bit value the clamp gives 0. *)
Theorem speed_clamp (y : Z) :
  (0 <= y <= 1023 ->
   velocidade_final y = 255 - deflection y /\ 0 <= deflection y <= 255) /\
  (1023 <= y <= 65535 -> velocidade_final y = 0).
Proof.
  split.
  - intros Hy. unfold deflection.
    destruct (Z.gtb_spec y 800) as [Hhi | Hhi].
    + rewrite velocidade_final_high by lia.
      split; [reflexivity | apply scaled_range; lia].
    + destruct (Z.ltb_spec y 200) as [Hlo | Hlo].
      * rewrite velocidade_final_low by lia.
        split; [reflexivity | apply scaled_range; lia].
      * rewrite velocidade_final_neutral by lia. lia.
  - intros Hy. unfold velocidade_final.
    destruct (Z.gtb_spec y 800) as [_|?]; [|lia].
    rewrite (u16_small (y - 801)) by lia.
    rewrite (long_small ((y - 801) * 255)) by lia.
    rewrite Z.quot_div_nonneg by lia.
    assert (Hq : 255 <= (y - 801) * 255 / 222)
      by (apply Z.div_le_lower_bound; lia).
    assert (Hq' : (y - 801) * 255 / 222 <= 16507170)
      by (apply Z.div_le_upper_bound; lia).
    rewrite long_small by lia.
    destruct (Z.ltb_spec (255 - (y - 801) * 255 / 222) 0) as [_|?];
      [reflexivity|].
    replace ((y - 801) * 255 / 222) with 255 by lia. reflexivity.
Qed.

Lemma speed_clamp_witness :
  velocidade_final 900 = 255 - deflection 900 /\
  velocidade_final 40000 = 0.
Proof.
  destruct (speed_clamp 900) as (H1 & _).
  destruct (speed_clamp 40000) as (_ & H2).
  split; [apply H1; lia | apply H2; lia].
Defined.

(** ** From the stick to the wheels *)

Lemma joystick_packet (pind x y : Z) (data_packet : packet) :
  no_button pind ->
  loop_iteration pind x y data_packet = (get_cmd x y, velocidade_final y).
Proof.
  intros Hn. unfold loop_iteration. rewrite (no_button_mask pind Hn).
  reflexivity.
Qed.

Lemma get_cmd_class (x y : Z) :
  get_cmd x y
  = match quantizeAxis x, quantizeAxis y with
    | 0, 1 => wire_code FORWARD
    | 0, -1 => wire_code REVERSE
    | -1, 0 => wire_code LEFT
    | 1, 0 => wire_code RIGHT
    | -1, 1 => wire_code FORWARD_LEFT
    | 1, 1 => wire_code FORWARD_RIGHT
    | -1, -1 => wire_code REVERSE_LEFT
    | 1, -1 => wire_code REVERSE_RIGHT
    | _, _ => wire_code STOP
    end.
Proof.
  unfold get_cmd, quantizeAxis.
  destruct (x <? 200); destruct (x >? 800);
    destruct (y <? 200); destruct (y >? 800); reflexivity.
Qed.

Lemma quantize_low (a : Z) : a < 200 -> quantizeAxis a = -1.
Proof.
  intros H. unfold quantizeAxis.
  destruct (Z.ltb_spec a 200); [reflexivity | lia].
Qed.

Lemma quantize_high (a : Z) : 800 < a -> quantizeAxis a = 1.
Proof.
  intros H. unfold quantizeAxis.
  destruct (Z.ltb_spec a 200); [lia|].
  destruct (Z.gtb_spec a 800); [reflexivity | lia].
Qed.

Lemma quantize_mid (a : Z) : 200 <= a <= 800 -> quantizeAxis a = 0.
Proof.
  intros H. unfold quantizeAxis.
  destruct (Z.ltb_spec a 200); [lia|].
  destruct (Z.gtb_spec a 800); [lia | reflexivity].
Qed.

Lemma deflection_high (y : Z) :
  800 < y <= 1023 ->
  deflection y = (y - 801) * 255 / 222 /\ 0 <= deflection y <= 255 /\
  velocidade_final y = 255 - deflection y.
Proof.
  intros Hy. assert (E : deflection y = (y - 801) * 255 / 222).
  { unfold deflection. destruct (Z.gtb_spec y 800); [reflexivity | lia]. }
  rewrite E, velocidade_final_high by lia.
  repeat split; apply scaled_range; lia.
Qed.

Lemma deflection_low (y : Z) :
  0 <= y < 200 ->
  deflection y = (199 - y) * 255 / 199 /\ 0 <= deflection y <= 255 /\
  velocidade_final y = 255 - deflection y.
Proof.
  intros Hy. assert (E : deflection y = (199 - y) * 255 / 199).
  { unfold deflection. destruct (Z.gtb_spec y 800); [lia|].
    destruct (Z.ltb_spec y 200); [reflexivity | lia]. }
  rewrite E, velocidade_final_low by lia.
  repeat split; apply scaled_range; lia.
Qed.

(** X17: with no button held and the stick pushed straight forward ([x] in
    the neutral band, [y] above 800) the packet is FORWARD with speed byte
    255 minus the scaled deflection, and the receiver that dispatches it
    drives both wheels at the scaled deflection, 0 just outside the neutral
    band and 255 at the end of travel; pulled straight back ([y] below 200)
    the packet is REVERSE and a receiver with the forward flag clear drives
    both wheels at the scaled deflection in the same way. *)
Theorem straight_drive_end_to_end
  (pind x y : Z) (data_packet : packet) (m : machine) :
  no_button pind -> 200 <= x <= 800 ->
  let sent := loop_iteration pind x y data_packet in
  let m' := dispatch (fst sent) (snd sent) m in
  (800 < y <= 1023 ->
   sent = (wire_code FORWARD, 255 - deflection y) /\
   duty m' = (deflection y, deflection y) /\ estado_rele m' = 1) /\
  (0 <= y < 200 -> estado_rele m = 0 ->
   sent = (wire_code REVERSE, 255 - deflection y) /\
   duty m' = (deflection y, deflection y) /\ estado_rele m' = 0) /\
  deflection 801 = 0 /\ deflection 1023 = 255 /\
  deflection 199 = 0 /\ deflection 0 = 255.
Proof.
  intros Hn Hx. cbv zeta. rewrite (joystick_packet pind x y _ Hn).
  rewrite get_cmd_class, (quantize_mid x Hx). cbn [fst snd].
  split; [|split; [|repeat split]].
  - intros Hy. rewrite (quantize_high y) by lia.
    destruct (deflection_high y Hy) as (_ & Hd & ->).
    destruct (dispatch_forward m (255 - deflection y)) as (D & E & _);
      [lia|].
    replace (255 - (255 - deflection y)) with (deflection y) in D by lia.
    repeat split; assumption.
  - intros Hy He. rewrite (quantize_low y) by lia.
    destruct (deflection_low y Hy) as (_ & Hd & ->).
    destruct (dispatch_reverse_free (255 - deflection y) m) as (D & _ & _ & E);
      [lia | exact He |].
    replace (255 - (255 - deflection y)) with (deflection y) in D by lia.
    repeat split; assumption.
Qed.

Lemma straight_drive_end_to_end_witness :
  let sent := loop_iteration 0xFF 500 1023 (0, 0) in
  sent = (wire_code FORWARD, 255 - deflection 1023) /\
  duty (dispatch (fst sent) (snd sent) boot)
    = (deflection 1023, deflection 1023).
Proof.
  intros sent.
  assert (Hn : no_button 0xFF).
  { intros j Hj. assert (Hc : j = 0 \/ j = 1 \/ j = 2 \/ j = 3) by lia.
    destruct Hc as [-> | [-> | [-> | ->]]]; reflexivity. }
  pose proof (straight_drive_end_to_end 0xFF 500 1023 (0, 0) boot Hn) as H.
  cbv zeta in H. destruct H as (H & _); [lia|].
  destruct H as (H1 & H2 & _); [lia|]. split; [exact H1 | exact H2].
Defined.

(** X18: with no button held and [y] in the neutral band the speed byte is
    always 255, so a stick held to the left gives LEFT with the wheels at
    (0, 255), held to the right RIGHT with (255, 0), and centred STOP with
    (0, 0): a pivot from this transmitter always runs at full duty. *)
Theorem pivot_end_to_end
  (pind x y : Z) (data_packet : packet) (m : machine) :
  no_button pind -> 200 <= y <= 800 ->
  let sent := loop_iteration pind x y data_packet in
  let m' := dispatch (fst sent) (snd sent) m in
  snd sent = 255 /\
  (x < 200 -> fst sent = wire_code LEFT /\ duty m' = (0, 255)) /\
  (800 < x -> fst sent = wire_code RIGHT /\ duty m' = (255, 0)) /\
  (200 <= x <= 800 -> fst sent = wire_code STOP /\ duty m' = (0, 0)).
Proof.
  intros Hn Hy. cbv zeta. rewrite (joystick_packet pind x y _ Hn).
  rewrite get_cmd_class, (quantize_mid y Hy),
    (velocidade_final_neutral y Hy). cbn [fst snd].
  split; [reflexivity|]. split; [|split].
  - intros Hx. rewrite (quantize_low x Hx). split; reflexivity.
  - intros Hx. rewrite (quantize_high x Hx). split; reflexivity.
  - intros Hx. rewrite (quantize_mid x Hx). split; reflexivity.
Qed.

Lemma pivot_end_to_end_witness :
  let sent := loop_iteration 0xFF 0 500 (0, 0) in
  fst sent = wire_code LEFT /\
  duty (dispatch (fst sent) (snd sent) boot) = (0, 255).
Proof.
  intros sent.
  assert (Hn : no_button 0xFF).
  { intros j Hj. assert (Hc : j = 0 \/ j = 1 \/ j = 2 \/ j = 3) by lia.
    destruct Hc as [-> | [-> | [-> | ->]]]; reflexivity. }
  pose proof (pivot_end_to_end 0xFF 0 500 (0, 0) boot Hn) as H.
  cbv zeta in H. destruct H as (_ & H & _); [lia|]. apply H. lia.
Defined.

(** X19: with no button held and the stick in a corner ([x] and [y] both
    outside the neutral band, [y] a 10-bit reading) the receiver sets one
    wheel to the scaled deflection [d] of [y] and the other to
    [(255 - d) / 2]: the first wheel is [OCR0A] when [x] is below 200 and
    [OCR2B] when [x] is above 800, for [y] above 800 and below 200 alike. *)
Theorem corner_end_to_end
  (pind x y : Z) (data_packet : packet) (m : machine) :
  no_button pind ->
  800 < y <= 1023 \/ 0 <= y < 200 ->
  let sent := loop_iteration pind x y data_packet in
  let m' := dispatch (fst sent) (snd sent) m in
  let d := deflection y in
  (x < 200 -> duty m' = (d, (255 - d) / 2)) /\
  (800 < x -> duty m' = ((255 - d) / 2, d)).
Proof.
  intros Hn Hy. cbv zeta. rewrite (joystick_packet pind x y _ Hn).
  rewrite get_cmd_class. cbn [fst snd].
  assert (Hd : 0 <= deflection y <= 255 /\
               velocidade_final y = 255 - deflection y).
  { destruct Hy as [Hy | Hy];
      [destruct (deflection_high y Hy) as (_ & H1 & H2)
      |destruct (deflection_low y Hy) as (_ & H1 & H2)]; auto. }
  destruct Hd as (Hd & ->).
  assert (Hs : 0 <= 255 - deflection y <= 255) by lia.
  assert (Hq : quantizeAxis y = 1 \/ quantizeAxis y = -1).
  { destruct Hy as [Hy | Hy];
      [left; apply quantize_high | right; apply quantize_low]; lia. }
  split; intros Hx;
    [rewrite (quantize_low x Hx) | rewrite (quantize_high x Hx)];
    destruct Hq as [-> | ->].
  - rewrite (dispatch_left_diagonal m _ Hs FORWARD_LEFT) by auto.
    f_equal. lia.
  - rewrite (dispatch_left_diagonal m _ Hs REVERSE_LEFT) by auto.
    f_equal. lia.
  - rewrite (dispatch_right_diagonal m _ Hs FORWARD_RIGHT) by auto.
    f_equal. lia.
  - rewrite (dispatch_right_diagonal m _ Hs REVERSE_RIGHT) by auto.
    f_equal. lia.
Qed.

Lemma corner_end_to_end_witness :
  let sent := loop_iteration 0xFF 0 1023 (0, 0) in
  duty (dispatch (fst sent) (snd sent) boot)
    = (deflection 1023, (255 - deflection 1023) / 2).
Proof.
  intros sent.
  assert (Hn : no_button 0xFF).
  { intros j Hj. assert (Hc : j = 0 \/ j = 1 \/ j = 2 \/ j = 3) by lia.
    destruct Hc as [-> | [-> | [-> | ->]]]; reflexivity. }
  pose proof (corner_end_to_end 0xFF 0 1023 (0, 0) boot Hn) as H.
  cbv zeta in H. destruct H as (H & _); [left; lia|]. apply H. lia.
Defined.

(** ** The buffer between passes *)

Lemma loop_iteration_forgets (pind x y : Z) (b b' : packet) :
  loop_iteration pind x y b = loop_iteration pind x y b'.
Proof. reflexivity. Qed.

(** X20: the buffer carries nothing from one pass to the next: the packets
    sent over any sequence of samples are those each sample gives on its
    own, one packet per sample, whatever the buffer held at the start. *)
Theorem transmit_is_stateless
  (samples : list (Z * Z * Z)) (data_packet : packet) :
  transmit samples data_packet
  = map (fun s => loop_iteration (fst (fst s)) (snd (fst s)) (snd s) (0, 0))
        samples.
Proof.
  revert data_packet.
  induction samples as [|[[pind x] y] rest IH]; intros b; [reflexivity|].
  cbn [transmit map fst snd]. rewrite IH.
  rewrite (loop_iteration_forgets pind x y b (0, 0)). reflexivity.
Qed.

(** * Motors and control state *)

Lemma set_twice (p mask : Z) :
  u8 (Z.lor (u8 (Z.lor p mask)) mask) = u8 (Z.lor p mask).
Proof.
  apply Z.bits_inj'. intros n Hn.
  destruct (Z_lt_le_dec n 8) as [Hlt | Hge].
  - rewrite !u8_testbit, !Z.lor_spec, u8_testbit, Z.lor_spec by lia.
    rewrite <- orb_assoc, orb_diag. reflexivity.
  - unfold u8. change 256 with (2 ^ 8).
    rewrite !Z.mod_pow2_bits_high by lia. reflexivity.
Qed.

(** X21: [motor_ligado] and [motor_desligado] write the same PWM set-up and
    differ only in the two compare values, 255 against 0; each makes [PD3]
    and [PD6] outputs and leaves [PORTC] and [PORTD] as they are; and
    [motor_desligado] after [motor_ligado] leaves every
    register as [motor_desligado] alone does, so the forced stop of a
    penalty undoes the hit pulse completely. *)
Theorem motor_off_undoes_motor_on (r : regs) (x : reg) :
  (x <> OCR0A -> x <> OCR2B -> motor_ligado r x = motor_desligado r x) /\
  motor_desligado (motor_ligado r) x = motor_desligado r x /\
  (motor_ligado r OCR0A = 255 /\ motor_ligado r OCR2B = 255 /\
   motor_desligado r OCR0A = 0 /\ motor_desligado r OCR2B = 0) /\
  (Z.testbit (motor_desligado r DDRD) PD3 = true /\
   Z.testbit (motor_desligado r DDRD) PD6 = true) /\
  (motor_desligado r PORTC = r PORTC /\ motor_desligado r PORTD = r PORTD /\
   motor_ligado r PORTC = r PORTC /\ motor_ligado r PORTD = r PORTD).
Proof.
  split; [|split; [|split; [|split]]].
  - intros H1 H2. destruct x; try reflexivity; contradiction.
  - destruct x; regs; try reflexivity. apply set_twice.
  - repeat split.
  - regs. split; apply set_same; try reflexivity;
      split; try discriminate; reflexivity.
  - repeat split.
Qed.

Lemma ldr_cascade_control (v : Z) (m : machine) :
  pc m = LoopHead ->
  let m' := ldr_cascade v m in
  modo_penalidade m' = modo_penalidade m /\
  (pc m' = LoopHead /\ vidas m' = vidas m \/
   pc m' = BusyWait /\ v < 30 /\ ldr_estado m = 0 /\ ldr_estado m' = 1 /\
   1 <= vidas m <= 3 /\ vidas m' = vidas m - 1).
Proof.
  destruct m as [r tr mp cp le er vi q l]. cbn [pc]. intros ->.
  unfold ldr_cascade. cbn [vidas ldr_estado].
  destruct (Z.ltb_spec v 30) as [Hv | Hv]; cbn [andb];
    [destruct (Z.eqb_spec le 0) as [-> | Hl];
     rewrite ?andb_false_r, ?andb_true_r;
     [destruct (Z.eqb_spec vi 3) as [-> | N3];
      [|destruct (Z.eqb_spec vi 2) as [-> | N2];
        [|destruct (Z.eqb_spec vi 1) as [-> | N1]]]|]|].
  all: try (destruct (v >? 30)).
  all: cbn; split; try reflexivity.
  all: first [ left; split; reflexivity
             | right; repeat split; try reflexivity; lia ].
Qed.

(** X22: the control state of the receiver moves only along three edges.
    At the head of the loop outside a penalty a step either stays there or
    enters the busy wait, the latter only by an iteration that reads below
    30 with the latch clear and takes exactly one life; in the busy wait a
    step either stays or returns to the head of the loop with the penalty
    set, the latter only by the main program after a tick was signalled; in
    a penalty a step either stays or ends the penalty, the latter only by the
    tick that finds the counter at 4. *)
Theorem control_transitions (evs : list event) (e : event) :
  let m := run evs boot in
  let m' := step m e in
  (pc m = LoopHead -> modo_penalidade m = 0 ->
   pc m' = LoopHead /\ modo_penalidade m' = 0 \/
   pc m' = BusyWait /\ modo_penalidade m' = 0 /\
   exists v, e = Main v /\ v < 30 /\ ldr_estado m = 0 /\
             vidas m' = vidas (poll_radio m) - 1) /\
  (pc m = BusyWait ->
   pc m' = BusyWait /\ modo_penalidade m' = 0 \/
   pc m' = LoopHead /\ modo_penalidade m' = 1 /\
   contador_penalidade m' = 0 /\
   exists v, e = Main v /\ tempo_rotacao m <> 0) /\
  (modo_penalidade m = 1 ->
   pc m' = LoopHead /\
   (modo_penalidade m' = 1 \/
    modo_penalidade m' = 0 /\ e = Tick /\ contador_penalidade m = 4)).
Proof.
  cbv zeta. destruct (run_consistent evs) as (_ & Hp & _).
  set (m := run evs boot) in *.
  split; [|split].
  - intros Hpc H0. destruct e as [|p|v]; cbn [step].
    + left. destruct (ISR_normal m H0) as (J0 & _).
      destruct (ISR_frame m) as (_ & _ & _ & _ & Fpc & _).
      split; congruence.
    + left. split; assumption.
    + rewrite main_step_normal by (auto; lia).
      destruct (poll_radio_frame m) as (Fl & Fp & _ & _ & Fpc & _).
      destruct (ldr_cascade_control v (poll_radio m)) as (Cp & C);
        [congruence|].
      destruct C as [(C1 & _) | (C1 & Cv & Cl & _ & _ & Cd)].
      * left. split; congruence.
      * right. split; [exact C1|]. split; [congruence|].
        exists v. repeat split; congruence.
  - intros Hpc.
    assert (H0 : modo_penalidade m = 0)
      by (destruct Hp as [(H0 & _) | (_ & _ & _ & _ & Hh)]; congruence).
    destruct e as [|p|v]; cbn [step].
    + left. destruct (ISR_normal m H0) as (J0 & _).
      destruct (ISR_frame m) as (_ & _ & _ & _ & Fpc & _).
      split; congruence.
    + left. split; assumption.
    + unfold main_step. rewrite Hpc.
      destruct (Z.eqb_spec (tempo_rotacao m) 0) as [Ht | Ht].
      * left. split; assumption.
      * right. repeat split. exists v. split; [reflexivity | exact Ht].
  - intros H1.
    destruct Hp as [(H0 & _) | (_ & Hc & _ & _ & Hpc)]; [congruence|].
    destruct e as [|p|v]; cbn [step].
    + destruct (ISR_frame m) as (_ & _ & _ & _ & Fpc & _).
      split; [congruence|].
      destruct (Z.eq_dec (contador_penalidade m) 4) as [H4 | H4].
      * right. destruct (ISR_fifth m H1 H4) as (J0 & _). auto.
      * left. apply (ISR_penalized m H1). lia.
    + split; [exact Hpc | left; exact H1].
    + rewrite (main_step_penalized v m H1 Hpc).
      split; [exact Hpc | left; exact H1].
Qed.

Lemma control_transitions_witness :
  let m := run [Main 10; Tick] boot in
  pc m = BusyWait /\ tempo_rotacao m <> 0 /\
  pc (step m (Main 0)) = LoopHead /\ modo_penalidade (step m (Main 0)) = 1.
Proof.
  intros m.
  assert (Hpc : pc m = BusyWait) by (vm_compute; reflexivity).
  assert (Ht : tempo_rotacao m <> 0) by (vm_compute; discriminate).
  pose proof (control_transitions [Main 10; Tick] (Main 0)) as H.
  cbv zeta in H. destruct H as (_ & H & _).
  destruct (H Hpc) as [(Hb & _) | (Hl & H1 & _)].
  - exfalso. revert Hb. vm_compute. discriminate.
  - split; [exact Hpc|]. split; [exact Ht|]. split; [exact Hl | exact H1].
Defined.

Lemma motor_off_undoes_motor_on_witness :
  motor_ligado (io boot) TCCR0A = motor_desligado (io boot) TCCR0A /\
  motor_desligado (motor_ligado (io boot)) DDRD = motor_desligado (io boot) DDRD.
Proof.
  destruct (motor_off_undoes_motor_on (io boot) TCCR0A) as (H1 & _).
  destruct (motor_off_undoes_motor_on (io boot) DDRD) as (_ & H2 & _).
  split; [apply H1; discriminate | exact H2].
Defined.

(** * Lives along any run *)

Lemma main_step_rx (v : Z) (m : machine) :
  rx (main_step v m) = rx m \/ rx (main_step v m) = tl (rx m).
Proof.
  unfold main_step. destruct (pc m) eqn:Hpc.
  - unfold Receptor.loop_iteration.
    destruct (modo_penalidade m =? 1); [left; reflexivity|].
    right. destruct (ldr_cascade_frame v (poll_radio m)) as (_ & ->).
    apply poll_radio_frame.
  - left. destruct (tempo_rotacao m =? 0); reflexivity.
Qed.

Lemma step_no_reset (m : machine) (e : event) :
  no_reset_pending m -> quiet_event e -> no_reset_pending (step m e).
Proof.
  intros Hm He. destruct e as [|p|v]; cbn [step].
  - unfold no_reset_pending.
    destruct (ISR_frame m) as (_ & _ & _ & -> & _). exact Hm.
  - unfold no_reset_pending. cbn [rx set_rx].
    apply Forall_app. split; [exact Hm|]. constructor; [exact He | constructor].
  - destruct (main_step_rx v m) as [E | E].
    + unfold no_reset_pending. rewrite E. exact Hm.
    + apply (no_reset_tl m _ Hm E).
Qed.

Lemma hits_nonneg (evs : list event) (m : machine) : 0 <= hits evs m.
Proof.
  revert m. induction evs as [|e evs IH]; intros m; cbn [hits]; [lia|].
  specialize (IH (step m e)). destruct (qualifying m e); lia.
Qed.

(** What one event does to the lives and to the place in the program. *)
Lemma step_lives (m : machine) (e : event) :
  consistent m -> no_reset_pending m ->
  let taken := qualifying m e && (1 <=? vidas m) in
  vidas (step m e) = vidas m - (if taken then 1 else 0) /\
  (if enters_penalty m e then 1 else 0) + in_wait (step m e)
    = (if taken then 1 else 0) + in_wait m.
Proof.
  intros (Hv & Hp & Hb & _) Hq. cbv zeta.
  unfold enters_penalty, in_wait.
  destruct e as [|p|v]; cbn [step qualifying andb].
  - destruct (ISR_frame m) as (Fv & _ & _ & _ & Fpc & _). rewrite Fv, Fpc.
    destruct Hp as [(H0 & _) | (H1 & _)].
    + destruct (ISR_normal m H0) as (J0 & _). rewrite H0, J0. cbn. lia.
    + rewrite H1. cbn. lia.
  - cbn [vidas modo_penalidade pc set_rx].
    destruct (modo_penalidade m =? 1); cbn; lia.
  - destruct (pc m) eqn:Hpc.
    + destruct Hp as [(H0 & _) | (H1 & _ & _ & _ & _)].
      * rewrite H0. change (negb (0 =? 1)) with true. cbn [andb].
        destruct ((v <? 30) && (ldr_estado m =? 0) && (1 <=? vidas m))
          eqn:Ht.
        -- apply andb_prop in Ht. destruct Ht as (Ht & H1).
           apply andb_prop in Ht. destruct Ht as (Hlt & Hl).
           apply Z.ltb_lt in Hlt. apply Z.eqb_eq in Hl. apply Z.leb_le in H1.
           destruct (hit_taken m v) as (Tv & _ & Tpc & _ & Tp & _);
             [repeat split; assumption | exact Hlt | lia |].
           rewrite Tv, Tpc, Tp. cbn. lia.
        -- rewrite (main_step_normal v m Hpc) by lia.
           destruct (poll_radio_frame m) as (Fl & Fp & _ & _ & Fpc & _).
           pose proof (poll_radio_keeps_lives m (or_intror Hq)) as Fv.
           destruct (ldr_cascade_control v (poll_radio m)) as (Cp & C);
             [congruence|].
           rewrite Cp, Fp, H0.
           destruct C as [(C1 & C2) | (_ & Cv & Cl & _ & Ck & _)].
           ++ rewrite C1, C2, Fv. cbn. lia.
           ++ exfalso. rewrite Fl in Cl. rewrite Fv in Ck.
              apply Z.ltb_lt in Cv. apply Z.eqb_eq in Cl.
              assert (Hk : (1 <=? vidas m) = true) by (apply Z.leb_le; lia).
              rewrite Cv, Cl, Hk in Ht. discriminate.
      * rewrite (main_step_penalized v m H1 Hpc). rewrite H1.
        cbn [vidas modo_penalidade pc with_io]. rewrite Hpc. cbn. lia.
    + assert (H0 : modo_penalidade m = 0)
        by (destruct Hp as [(H0 & _) | (_ & _ & _ & _ & Hh)]; congruence).
      unfold main_step. rewrite Hpc, H0.
      destruct (tempo_rotacao m =? 0).
      * rewrite Hpc, H0. cbn. lia.
      * cbn. lia.
Qed.

Lemma run_lives (evs : list event) (m : machine) :
  consistent m -> no_reset_pending m -> quiet evs ->
  vidas (run evs m) = Z.max 0 (vidas m - hits evs m) /\
  penalties evs m + in_wait (run evs m)
    = (vidas m - vidas (run evs m)) + in_wait m.
Proof.
  revert m. induction evs as [|e evs IH]; intros m Hm Hq Hevs.
  - cbn [run fold_left hits penalties]. destruct Hm as (Hv & _). lia.
  - inversion Hevs as [|? ? He Hrest]; subst.
    destruct (step_lives m e Hm Hq) as (Sv & Sp).
    destruct (IH (step m e) (step_consistent m e Hm)
                 (step_no_reset m e Hq He) Hrest) as (Iv & Ip).
    pose proof (hits_nonneg evs (step m e)) as Hh.
    destruct Hm as (Hv & _).
    rewrite run_cons. cbn [hits penalties].
    destruct (qualifying m e); destruct (Z.leb_spec 1 (vidas m));
      cbn [andb] in Sv, Sp; lia.
Qed.

(** C3: in every run from a machine as the main loop keeps it, in which no
    RESET_LIVES is pending or arrives, whatever iterations, ticks and
    packets interleave, the lives are the lives at the start less the number
    of qualifying hits (iterations outside a penalty that read below 30 with
    the latch clear), and never below 0: from 3 lives they are 2, 1 and 0
    after one, two and three hits and stay 0 from the fourth on.  Each life
    taken has its penalty entered, or its hit pulse still waiting for the
    tick.  A qualifying hit at 0 lives changes no life and starts neither
    pulse nor penalty.  RESET_LIVES dispatched at 0 lives gives 3 lives, and
    dispatched with lives left it leaves the machine as it is. *)
Theorem life_sequence (m : machine) (evs : list event) :
  consistent m -> no_reset_pending m -> quiet evs ->
  let m' := run evs m in
  vidas m' = Z.max 0 (vidas m - hits evs m) /\
  penalties evs m + in_wait m' = (vidas m - vidas m') + in_wait m /\
  (forall v, qualifying m' (Main v) = true -> vidas m' = 0 ->
     vidas (main_step v m') = 0 /\ modo_penalidade (main_step v m') = 0 /\
     pc (main_step v m') = LoopHead) /\
  (forall s, vidas m' = 0 ->
     vidas (dispatch (wire_code RESET_LIVES) s m') = 3) /\
  (forall s, vidas m' <> 0 -> dispatch (wire_code RESET_LIVES) s m' = m').
Proof.
  intros Hm Hq Hevs. cbv zeta.
  destruct (run_lives evs m Hm Hq Hevs) as (Hv & Hp).
  split; [exact Hv|]. split; [exact Hp|].
  assert (Hq' : no_reset_pending (run evs m)).
  { clear Hv Hp. revert m Hm Hq.
    induction Hevs as [|e evs He Hrest IH]; intros m Hm Hq; [exact Hq|].
    rewrite run_cons.
    apply IH; [apply step_consistent, Hm | apply step_no_reset; assumption]. }
  pose proof (run_from_consistent evs m Hm) as (_ & Cp & _).
  set (m' := run evs m) in *.
  split; [|split; intros s; apply dispatch_reset].
  intros v Hqual H0. unfold qualifying in Hqual.
  destruct (pc m') eqn:Hpc; [|discriminate].
  apply andb_prop in Hqual. destruct Hqual as (Hqual & Hl).
  apply andb_prop in Hqual. destruct Hqual as (Hn & Hlt).
  apply Z.ltb_lt in Hlt. apply Z.eqb_eq in Hl.
  assert (Hmodo : modo_penalidade m' = 0).
  { destruct Cp as [(C0 & _) | (C1 & _)]; [exact C0|].
    rewrite C1 in Hn. discriminate. }
  apply hit_at_zero_lives; [repeat split; assumption | | |]; assumption.
Qed.

Lemma life_sequence_witness :
  let evs :=
    [Main 10; Main 10; Arrive (wire_code FORWARD, 200); Tick; Main 0;
     Main 500; Tick; Main 5; Arrive (wire_code STOP, 255); Tick; Tick; Tick;
     Main 10; Tick; Main 500;
     Main 29; Tick; Main 0; Tick; Tick; Main 500; Tick; Tick; Tick; Main 31;
     Tick; Main 0; Main 0; Tick; Main 0; Tick; Tick; Tick; Tick; Tick;
     Main 1023; Main 0; Main 0] in
  hits evs boot = 5 /\ vidas (run evs boot) = 0 /\
  penalties evs boot = 3.
Proof.
  intros evs.
  assert (Hq : no_reset_pending boot) by constructor.
  assert (Hevs : quiet evs) by (repeat constructor; discriminate).
  pose proof (life_sequence boot evs consistent_boot Hq Hevs) as H.
  cbv zeta in H. destruct H as (Hv & Hp & _).
  assert (Hh : hits evs boot = 5) by (vm_compute; reflexivity).
  assert (Hw : in_wait (run evs boot) = 0) by (vm_compute; reflexivity).
  rewrite Hh in Hv. rewrite Hv, Hw in Hp.
  split; [exact Hh|]. split; [exact Hv|].
  change (vidas boot) with 3 in Hp. change (in_wait boot) with 0 in Hp.
  change (Z.max 0 (3 - 5)) with 0 in Hp. lia.
Defined.
